(** * Playback reporter of mediaimporter.plex ([plex/player.py])

    A shallow embedding of the [Player] class: the provider registry, the
    per-session attributes, the matching procedure [_startPlayback], the
    state synchronisation [_syncPlaybackState] and the reporting loop
    [_monitor_playback], followed by the theorems about them.

    Conventions of the embedding.
    - Python values that may be [None] are [option]s; an instance attribute
      that may not exist yet is an [attr] (reading [NoAttr] raises
      [AttributeError]).
    - A method is a computation in the monad [M]: it threads the [World]
      (the object, the monitor threads, the calls made to collaborators)
      and may raise a Python exception; what was written before the raise
      stays written.
    - The host player, the import catalog and the Plex API are collaborators
      outside the class; their answers at the time of a call are the fields
      of a [Host] snapshot.
    - Strings are byte strings; floats are IEEE 754 binary64 values
      ([SpecFloat] with precision 53 and maximal exponent 1024). *)

From Stdlib Require Import ZArith String Ascii List Bool Lia SpecFloat.
Import ListNotations.
Local Open Scope string_scope.
Local Open Scope list_scope.
Local Open Scope Z_scope.

Set Implicit Arguments.

(** ** Python values *)

Inductive PyExc : Type :=
| ValueError
| KeyError
| AttributeError
| IndexError
| UnboundLocalError
| OverflowError.

Inductive Res (A : Type) : Type :=
| Ok (a : A)
| Raise (e : PyExc).
Arguments Ok {A} a.
Arguments Raise {A} e.

(** An instance attribute: absent from the object or bound to a value. *)
Inductive attr (A : Type) : Type :=
| NoAttr
| Attr (v : A).
Arguments NoAttr {A}.
Arguments Attr {A} v.

(** Truth value testing, [bool(x)]. *)
Class Truthy (A : Type) : Type := truthy : A -> bool.

#[export] Instance Truthy_string : Truthy string :=
  fun s => match s with EmptyString => false | String _ _ => true end.
#[export] Instance Truthy_Z : Truthy Z :=
  fun z => negb (z =? 0).
#[export] Instance Truthy_list (A : Type) : Truthy (list A) :=
  fun l => match l with [] => false | _ :: _ => true end.
#[export] Instance Truthy_option (A : Type) `{Truthy A} : Truthy (option A) :=
  fun o => match o with None => false | Some a => truthy a end.

(** [x is not None] *)
Definition is_not_None (A : Type) (o : option A) : bool :=
  match o with None => false | Some _ => true end.

(** *** [str.isdigit], [int(str)] and [str(int)] *)

Definition is_digit_char (c : ascii) : bool :=
  (48 <=? Z.of_nat (nat_of_ascii c)) && (Z.of_nat (nat_of_ascii c) <=? 57).

Fixpoint all_digits (s : string) : bool :=
  match s with
  | EmptyString => true
  | String c s' => is_digit_char c && all_digits s'
  end.

(** [s.isdigit()]: at least one character, and all of them digits. *)
Definition isdigit (s : string) : bool := truthy s && all_digits s.

Fixpoint digits_value (acc : Z) (s : string) : Z :=
  match s with
  | EmptyString => acc
  | String c s' => digits_value (10 * acc + (Z.of_nat (nat_of_ascii c) - 48)) s'
  end.

(** [int(s)] on the strings the class passes to it.  Python also accepts a
    sign, surrounding blanks and has further literal forms; none of those
    strings passes [isdigit], and [_startPlayback] reaches [int] on digit
    strings only (see [_startPlayback] below), so every other string is
    left at the [ValueError] of an unparsable literal. *)
Definition int_of_str (s : string) : Res Z :=
  if isdigit s then Ok (digits_value 0 s) else Raise ValueError.

Definition digit_char (d : Z) : ascii := ascii_of_nat (Z.to_nat (48 + d)).

Fixpoint str_of_pos_fuel (fuel : nat) (n : Z) (acc : string) : string :=
  match fuel with
  | O => acc
  | S fuel' =>
      let acc' := String (digit_char (n mod 10)) acc in
      if n / 10 =? 0 then acc' else str_of_pos_fuel fuel' (n / 10) acc'
  end.

(** [str(n)] for an integer: decimal digits, a leading minus sign for a
    negative number.  The fuel is the bit length, which bounds the number
    of decimal digits. *)
Definition str_of_int (n : Z) : string :=
  match n with
  | Z0 => "0"
  | Zpos _ => str_of_pos_fuel (S (Z.to_nat (Z.log2 n))) n ""
  | Zneg _ => String "-" (str_of_pos_fuel (S (Z.to_nat (Z.log2 (- n)))) (- n) "")
  end.

(** *** [float * int] and [int(float)] *)

Definition float : Type := spec_float.

Definition prec : Z := 53.
Definition emax : Z := 1024.

(** The float of a (small) integer, as the mixed product [x * 1000]
    converts its integer operand. *)
Definition float_of_int (n : Z) : float :=
  binary_normalize prec emax n 0 false.

Definition float_mul (x y : float) : float := SFmul prec emax x y.

(** [int(x)]: truncation towards zero; [int] of a NaN is a [ValueError],
    of an infinity an [OverflowError]. *)
Definition int_of_float (x : float) : Res Z :=
  match x with
  | S754_zero _ => Ok 0
  | S754_infinity _ => Raise OverflowError
  | S754_nan => Raise ValueError
  | S754_finite s m e =>
      let mag := if 0 <=? e then Z.shiftl (Zpos m) e else Z.shiftr (Zpos m) (- e) in
      Ok (if s then - mag else mag)
  end.

(** ** Collaborators

    The objects the class receives from the host ([xbmc],
    [xbmcmediaimport]) and from the Plex API.  None of them defines
    [__bool__] or [__len__]: an object is true, only [None] is false. *)

Module InfoTagVideo.
Record t : Type := mk {
  getUniqueID : string -> string;   (* the empty string when there is none *)
  getMediaType : string
}.
End InfoTagVideo.

Module ListItem.
Record t : Type := mk {
  getVideoInfoTag : option InfoTagVideo.t
}.
End ListItem.

Module MediaProvider.
Record t : Type := mk {
  getIdentifier : string;
  getFriendlyName : string
}.
End MediaProvider.

Module PlexItem.
Record t : Type := mk {
  ratingKey : Z;
  server : string
}.
End PlexItem.

Module Thread.
Record t : Type := mk { ident : nat }.
End Thread.

#[export] Instance Truthy_InfoTagVideo : Truthy InfoTagVideo.t := fun _ => true.
#[export] Instance Truthy_ListItem : Truthy ListItem.t := fun _ => true.
#[export] Instance Truthy_MediaProvider : Truthy MediaProvider.t := fun _ => true.
#[export] Instance Truthy_PlexItem : Truthy PlexItem.t := fun _ => true.
#[export] Instance Truthy_Thread : Truthy Thread.t := fun _ => true.

(** Modelled from the spec: the protocol tag of [plex/constants.py], a
    module that is not among the sources at hand.  No property below
    depends on its value. *)
Definition PLEX_PROTOCOL : string := "plex".

(** Modelled from the spec: the player state "playing" of
    [plex/constants.py] (states are the enum playing, paused, stopped). *)
Definition PLEX_PLAYER_PLAYING : string := "playing".

(** Modelled from the spec: the player state "paused" of
    [plex/constants.py]. *)
Definition PLEX_PLAYER_PAUSED : string := "paused".

(** Modelled from the spec: the player state "stopped" of
    [plex/constants.py]. *)
Definition PLEX_PLAYER_STOPPED : string := "stopped".

(** Seconds between two reports of the monitor. *)
Definition REPORTING_INTERVAL : Z := 5.

(** What the host answers at the time of one callback or one wake of the
    monitor.  [getPlexItemDetails p id mt] stands for
    [Api.getPlexItemDetails(Server(p).PlexServer(), id,
    Api.getPlexMediaClassFromMediaType(mt))].  The accessors are taken to
    answer: exceptions of the host or of the network are not part of the
    class. *)
Module Host.
Record t : Type := mk {
  getPlayingFile : string;
  isPlayingVideo : bool;
  getVideoInfoTag : option InfoTagVideo.t;
  getTime : float;
  getTotalTime : float;
  abortRequested : bool;
  getImportedItemsByProvider : MediaProvider.t -> list ListItem.t;
  getPlexItemDetails :
    MediaProvider.t -> option Z -> string -> option PlexItem.t
}.
End Host.

Inductive LogLevel : Type := LOGWARNING | LOGERROR.

Inductive LogMsg : Type :=
| invalid_item_id (item : ListItem.t)
| multiple_items_match (provider : MediaProvider.t) (itemId : option Z)
    (file : option string).

(** The calls the class makes to its collaborators, in the order made. *)
Inductive Call : Type :=
| updateTimeline (item : PlexItem.t) (time : Z) (state : string)
    (duration : option Z)
| log (msg : LogMsg) (level : LogLevel)
| getImportedItems (provider : MediaProvider.t)
| getPlexItem (provider : MediaProvider.t) (itemId : option Z)
    (mediaType : string)
| threadStart (thread : Thread.t).

(** ** The object *)

(** [self._providers]: a dict, iterated in insertion order; assigning to a
    key that is present keeps its place. *)
Definition dict (V : Type) : Type := list (string * V).

Fixpoint dict_get (V : Type) (k : string) (d : dict V) : option V :=
  match d with
  | [] => None
  | (k', v) :: d' => if String.eqb k k' then Some v else dict_get k d'
  end.

Fixpoint dict_set (V : Type) (k : string) (v : V) (d : dict V) : dict V :=
  match d with
  | [] => [(k, v)]
  | (k', v') :: d' =>
      if String.eqb k k' then (k, v) :: d' else (k', v') :: dict_set k v d'
  end.

(** [del d[k]]: [None] stands for the [KeyError] of a missing key. *)
Fixpoint dict_del (V : Type) (k : string) (d : dict V) : option (dict V) :=
  match d with
  | [] => None
  | (k', v') :: d' =>
      if String.eqb k k' then Some d'
      else option_map (cons (k', v')) (dict_del k d')
  end.

Definition dict_values (V : Type) (d : dict V) : list V := map snd d.

(** [self._last_state]: the dict with the two keys ['time'] and ['state']. *)
Record LastState : Type := mkLastState {
  ls_time : option Z;
  ls_state : option string
}.

Record Player : Type := mkPlayer {
  _providers : dict MediaProvider.t;
  _file : attr (option string);
  _item : attr (option PlexItem.t);
  _itemId : attr (option Z);
  _mediaProvider : attr (option MediaProvider.t);
  _duration : attr (option Z);
  _playback_monitor : attr (option Thread.t);
  _last_state : attr LastState
}.

(** Where a monitor thread stands: created and not started, about to test
    the loop condition, inside [waitForAbort], or returned. *)
Inductive MonitorPC : Type := Created | AtLoopTest | Waiting | Exited.

Record World : Type := mkWorld {
  self : Player;
  threads : list MonitorPC;
  calls : list Call
}.

(** ** The monad of methods *)

Definition M (A : Type) : Type := World -> Res A * World.

Definition ret (A : Type) (a : A) : M A := fun w => (Ok a, w).

Definition raise (A : Type) (e : PyExc) : M A := fun w => (Raise e, w).
Arguments raise {A} e.

Definition bind (A B : Type) (m : M A) (k : A -> M B) : M B :=
  fun w =>
    match m w with
    | (Ok a, w') => k a w'
    | (Raise e, w') => (Raise e, w')
    end.

Notation "x <- m ;; k" := (bind m (fun x => k))
  (at level 61, m at next level, right associativity).
Notation "m ;; k" := (bind m (fun _ => k))
  (at level 61, right associativity).

Definition lift (A : Type) (r : Res A) : M A := fun w => (r, w).

(** Reading [self.<attribute>]. *)
Definition getattr (A : Type) (f : Player -> attr A) : M A :=
  fun w =>
    match f (self w) with
    | Attr v => (Ok v, w)
    | NoAttr => (Raise AttributeError, w)
    end.

(** Assigning to [self.<attribute>], through one of the setters below. *)
Definition setattr (upd : Player -> Player) : M unit :=
  fun w => (Ok tt, mkWorld (upd (self w)) (threads w) (calls w)).

Definition call (c : Call) : M unit :=
  fun w => (Ok tt, mkWorld (self w) (threads w) (calls w ++ [c])).

(** Reading a local variable that may not be bound yet. *)
Definition local (A : Type) (x : option A) : M A :=
  match x with
  | Some a => ret a
  | None => raise UnboundLocalError
  end.

(** [l[i]] *)
Definition getitem (A : Type) (l : list A) (i : nat) : M A :=
  match nth_error l i with
  | Some a => ret a
  | None => raise IndexError
  end.

Definition set_providers (v : dict MediaProvider.t) (p : Player) : Player :=
  mkPlayer v (_file p) (_item p) (_itemId p) (_mediaProvider p)
    (_duration p) (_playback_monitor p) (_last_state p).
Definition set_file (v : option string) (p : Player) : Player :=
  mkPlayer (_providers p) (Attr v) (_item p) (_itemId p) (_mediaProvider p)
    (_duration p) (_playback_monitor p) (_last_state p).
Definition set_item (v : option PlexItem.t) (p : Player) : Player :=
  mkPlayer (_providers p) (_file p) (Attr v) (_itemId p) (_mediaProvider p)
    (_duration p) (_playback_monitor p) (_last_state p).
Definition set_itemId (v : option Z) (p : Player) : Player :=
  mkPlayer (_providers p) (_file p) (_item p) (Attr v) (_mediaProvider p)
    (_duration p) (_playback_monitor p) (_last_state p).
Definition set_mediaProvider (v : option MediaProvider.t) (p : Player)
  : Player :=
  mkPlayer (_providers p) (_file p) (_item p) (_itemId p) (Attr v)
    (_duration p) (_playback_monitor p) (_last_state p).
Definition set_duration (v : option Z) (p : Player) : Player :=
  mkPlayer (_providers p) (_file p) (_item p) (_itemId p) (_mediaProvider p)
    (Attr v) (_playback_monitor p) (_last_state p).
Definition set_playback_monitor (v : option Thread.t) (p : Player) : Player :=
  mkPlayer (_providers p) (_file p) (_item p) (_itemId p) (_mediaProvider p)
    (_duration p) (Attr v) (_last_state p).
Definition set_last_state (v : LastState) (p : Player) : Player :=
  mkPlayer (_providers p) (_file p) (_item p) (_itemId p) (_mediaProvider p)
    (_duration p) (_playback_monitor p) (Attr v).

(** *** Threads *)

Fixpoint list_set (A : Type) (i : nat) (x : A) (l : list A) : list A :=
  match l, i with
  | [], _ => []
  | _ :: l', O => x :: l'
  | y :: l', S i' => y :: list_set i' x l'
  end.

Definition thread_pc (w : World) (th : Thread.t) : MonitorPC :=
  nth (Thread.ident th) (threads w) Exited.

Definition set_pc (th : Thread.t) (pc : MonitorPC) (w : World) : World :=
  mkWorld (self w) (list_set (Thread.ident th) pc (threads w)) (calls w).

(** [threading.Thread(target=self._monitor_playback, ...)] *)
Definition Thread_new : M Thread.t :=
  fun w =>
    (Ok (Thread.mk (length (threads w))),
     mkWorld (self w) (threads w ++ [Created]) (calls w)).

Definition Thread_start (th : Thread.t) : M unit :=
  fun w => call (threadStart th) (set_pc th AtLoopTest w).

Definition is_alive (w : World) (th : Thread.t) : bool :=
  match thread_pc w th with
  | AtLoopTest | Waiting => true
  | Created | Exited => false
  end.

Definition Thread_isAlive (th : Thread.t) : M bool :=
  fun w => (Ok (is_alive w th), w).

(** ** The methods of [Player] *)

(** [__init__]: the provider dict (the monitor and the lock carry no data
    of their own here); no session attribute is created. *)
Definition __init__ : Player :=
  mkPlayer [] NoAttr NoAttr NoAttr NoAttr NoAttr NoAttr NoAttr.

Definition AddProvider (mediaProvider : option MediaProvider.t) : M unit :=
  match mediaProvider with
  | None => raise ValueError                         (* not mediaProvider *)
  | Some mp =>
      setattr (fun p =>
        set_providers
          (dict_set (MediaProvider.getIdentifier mp) mp (_providers p)) p)
  end.

Definition RemoveProvider (mediaProvider : option MediaProvider.t) : M unit :=
  match mediaProvider with
  | None => raise ValueError                         (* not mediaProvider *)
  | Some mp =>
      fun w =>
        match dict_del (MediaProvider.getIdentifier mp) (_providers (self w))
        with
        | None => raise KeyError w
        | Some d => setattr (set_providers d) w
        end
  end.

Definition _reset : M unit :=
  setattr (set_file None) ;;
  setattr (set_item None) ;;
  setattr (set_itemId None) ;;
  setattr (set_mediaProvider None) ;;
  setattr (set_duration None) ;;
  setattr (set_playback_monitor None) ;;
  setattr (set_last_state (mkLastState None None)).

(** [int(self.getTime() * 1000)] *)
Definition _getPlayingTime (h : Host.t) : M Z :=
  lift (int_of_float (float_mul (Host.getTime h) (float_of_int 1000))).

(** The [with self._lock] block is entered and left within one method
    call; a method call is one step of the [World], so the lock is not
    represented. *)
Definition _syncPlaybackState (state : option string) (time : option Z)
  : M unit :=
  if negb (truthy state) && negb (truthy time) then ret tt else
  item <- getattr _item ;;
  if negb (truthy item) then ret tt else
  (if truthy state then
     ls <- getattr _last_state ;;
     setattr (set_last_state (mkLastState (ls_time ls) state))
   else ret tt) ;;
  (match time with
   | Some t =>                                       (* time is not None *)
       ls <- getattr _last_state ;;
       setattr (set_last_state (mkLastState (Some t) (ls_state ls)))
   | None => ret tt
   end) ;;
  ls <- getattr _last_state ;;
  match ls_time ls, ls_state ls with
  | Some t, Some s =>
      if truthy s then
        item <- getattr _item ;;
        match item with
        | Some it =>
            duration <- getattr _duration ;;
            call (updateTimeline it t s duration)
        | None => raise AttributeError               (* None.updateTimeline *)
        end
      else ret tt
  | _, _ => ret tt
  end.

(** [str(self._itemId)] *)
Definition str_of_itemId (itemId : option Z) : string :=
  match itemId with
  | Some n => str_of_int n
  | None => "None"
  end.

(** The test of the list comprehension:
    [importedItem.getVideoInfoTag() and
     importedItem.getVideoInfoTag().getUniqueID(PLEX_PROTOCOL) == wanted]. *)
Definition item_matches (wanted : string) (importedItem : ListItem.t) : bool :=
  match ListItem.getVideoInfoTag importedItem with
  | Some tag => String.eqb (InfoTagVideo.getUniqueID tag PLEX_PROTOCOL) wanted
  | None => false
  end.

(** The value of [matchingItems] for one provider. *)
Definition matching (h : Host.t) (mediaProvider : MediaProvider.t)
    (itemId : option Z) : list ListItem.t :=
  filter (item_matches (str_of_itemId itemId))
    (Host.getImportedItemsByProvider h mediaProvider).

(** The body of [for mediaProvider in self._providers.values()]. *)
Fixpoint for_mediaProvider (h : Host.t) (providers : list MediaProvider.t)
  : M unit :=
  match providers with
  | [] => ret tt
  | mediaProvider :: rest =>
      call (getImportedItems mediaProvider) ;;
      itemId <- getattr _itemId ;;
      let matchingItems := matching h mediaProvider itemId in
      if negb (truthy matchingItems) then
        for_mediaProvider h rest                     (* continue *)
      else
        (if (1 <? length matchingItems)%nat then
           file <- getattr _file ;;
           call (log (multiple_items_match mediaProvider itemId file)
                   LOGWARNING)
         else ret tt) ;;
        setattr (set_mediaProvider (Some mediaProvider))   (* break *)
  end.

Definition _startPlayback (h : Host.t) : M unit :=
  (* matchingItems is a local of the method, bound in the loop only *)
  let matchingItems : option (list ListItem.t) := None in
  file <- getattr _file ;;
  if negb (truthy file) then ret tt else
  if negb (Host.isPlayingVideo h) then ret tt else
  match Host.getVideoInfoTag h with
  | None => ret tt
  | Some videoInfoTag =>
      let itemId := InfoTagVideo.getUniqueID videoInfoTag PLEX_PROTOCOL in
      if negb (truthy itemId) then ret tt else
      (if negb (isdigit itemId) then
         l <- local matchingItems ;;
         item0 <- getitem l 0 ;;
         call (log (invalid_item_id item0) LOGERROR)
       else ret tt) ;;
      n <- lift (int_of_str itemId) ;;
      setattr (set_itemId (Some n)) ;;
      (fun w => for_mediaProvider h (dict_values (_providers (self w))) w) ;;
      selected <- getattr _mediaProvider ;;
      match selected with
      | Some mediaProvider =>                        (* if self._mediaProvider *)
          itemId <- getattr _itemId ;;
          let mediaType := InfoTagVideo.getMediaType videoInfoTag in
          call (getPlexItem mediaProvider itemId mediaType) ;;
          setattr
            (set_item (Host.getPlexItemDetails h mediaProvider itemId mediaType)) ;;
          d <- lift (int_of_float
                       (float_mul (Host.getTotalTime h) (float_of_int 1000))) ;;
          setattr (set_duration (Some d)) ;;
          monitor <- getattr _playback_monitor ;;
          alive <- match monitor with
                   | Some th => Thread_isAlive th
                   | None => ret false
                   end ;;
          if negb (truthy monitor) || negb alive then
            th <- Thread_new ;;
            setattr (set_playback_monitor (Some th)) ;;
            Thread_start th
          else ret tt
      | None => _reset
      end
  end.

Definition onPlayBackStarted (h : Host.t) : M unit :=
  _reset ;;
  setattr (set_file (Some (Host.getPlayingFile h))).

Definition onAVStarted (h : Host.t) : M unit :=
  _startPlayback h ;;
  _syncPlaybackState (Some PLEX_PLAYER_PLAYING) (Some 0).

Definition onPlayBackSeek (h : Host.t) : M unit :=
  t <- _getPlayingTime h ;;
  _syncPlaybackState None (Some t).

Definition onPlayBackSeekChapter (h : Host.t) : M unit :=
  t <- _getPlayingTime h ;;
  _syncPlaybackState None (Some t).

Definition onPlayBackPaused (h : Host.t) : M unit :=
  t <- _getPlayingTime h ;;
  _syncPlaybackState (Some PLEX_PLAYER_PAUSED) (Some t).

Definition onPlayBackResumed (h : Host.t) : M unit :=
  t <- _getPlayingTime h ;;
  _syncPlaybackState (Some PLEX_PLAYER_PLAYING) (Some t).

Definition onPlayBackEnded : M unit := _reset.

Definition onPlayBackStopped : M unit :=
  _syncPlaybackState (Some PLEX_PLAYER_STOPPED) None ;;
  onPlayBackEnded.

(** *** The monitor thread

    [_monitor_playback] runs in its own thread.  One step of a thread is
    what it does between two points where other code can run: the test of
    the [while] condition, and the part of the body after [waitForAbort]
    has returned. *)

(** [not self._monitor.abortRequested() and self._item is not None] *)
Definition monitor_loop_test (h : Host.t) : M bool :=
  if Host.abortRequested h then ret false else
  item <- getattr _item ;;
  ret (is_not_None item).

(** After [waitForAbort]: [false] at the [break], [true] after the sync. *)
Definition monitor_wake (h : Host.t) : M bool :=
  if Host.abortRequested h then ret false else
  item <- getattr _item ;;
  if negb (truthy item) then ret false else
  t <- _getPlayingTime h ;;
  _syncPlaybackState None (Some t) ;;
  ret true.

(** One step of the thread [th]; an exception ends the thread. *)
Definition _monitor_playback (h : Host.t) (th : Thread.t) (w : World)
  : World :=
  match thread_pc w th with
  | AtLoopTest =>
      match monitor_loop_test h w with
      | (Ok true, w') => set_pc th Waiting w'
      | (_, w') => set_pc th Exited w'
      end
  | Waiting =>
      match monitor_wake h w with
      | (Ok true, w') => set_pc th AtLoopTest w'
      | (_, w') => set_pc th Exited w'
      end
  | Created | Exited => w
  end.

(** ** Runs

    What happens to a reporter: the host calls one of its methods, or one
    of its monitor threads gets to run.  An exception of a callback goes to
    the host, which carries on. *)
Inductive Callback : Type :=
| CAddProvider (mediaProvider : option MediaProvider.t)
| CRemoveProvider (mediaProvider : option MediaProvider.t)
| CPlayBackStarted
| CAVStarted
| CPlayBackSeek
| CPlayBackSeekChapter
| CPlayBackPaused
| CPlayBackResumed
| CPlayBackStopped
| CPlayBackEnded.

Definition callback (h : Host.t) (c : Callback) : M unit :=
  match c with
  | CAddProvider mp => AddProvider mp
  | CRemoveProvider mp => RemoveProvider mp
  | CPlayBackStarted => onPlayBackStarted h
  | CAVStarted => onAVStarted h
  | CPlayBackSeek => onPlayBackSeek h
  | CPlayBackSeekChapter => onPlayBackSeekChapter h
  | CPlayBackPaused => onPlayBackPaused h
  | CPlayBackResumed => onPlayBackResumed h
  | CPlayBackStopped => onPlayBackStopped
  | CPlayBackEnded => onPlayBackEnded
  end.

Inductive Event : Type :=
| Host_calls (c : Callback)
| Thread_runs (th : Thread.t).

Definition step (w : World) (he : Host.t * Event) : World :=
  match snd he with
  | Host_calls c => snd (callback (fst he) c w)
  | Thread_runs th => _monitor_playback (fst he) th w
  end.

Definition run (w : World) (trace : list (Host.t * Event)) : World :=
  fold_left step trace w.

(** A reporter right after construction. *)
Definition fresh : World := mkWorld __init__ [] [].

(** The timeline updates among the calls made. *)
Definition is_push (c : Call) : bool :=
  match c with updateTimeline _ _ _ _ => true | _ => false end.

Definition pushes (w : World) : list Call := filter is_push (calls w).

(** The session attributes all bound to [None], the last-state record
    empty: what [_reset] leaves. *)
Definition idle (p : Player) : Prop :=
  _file p = Attr None /\
  _item p = Attr None /\
  _itemId p = Attr None /\
  _mediaProvider p = Attr None /\
  _duration p = Attr None /\
  _playback_monitor p = Attr None /\
  _last_state p = Attr (mkLastState None None).

(** Every session attribute exists (with whatever value): the state of an
    object on which [_reset] has run at least once. *)
Definition has_attr (A : Type) (a : attr A) : bool :=
  match a with NoAttr => false | Attr _ => true end.

Definition initialised (p : Player) : bool :=
  has_attr (_file p) && has_attr (_item p) && has_attr (_itemId p) &&
  has_attr (_mediaProvider p) && has_attr (_duration p) &&
  has_attr (_playback_monitor p) && has_attr (_last_state p).

(** The id that [_startPlayback] parses from the tag of the playing video. *)
Definition item_id (tag : InfoTagVideo.t) : Z :=
  digits_value 0 (InfoTagVideo.getUniqueID tag PLEX_PROTOCOL).

(** The catalog of provider [p] holds an item whose unique id under the
    protocol tag is the string form of [itemId]. *)
Definition has_match (h : Host.t) (itemId : option Z) (p : MediaProvider.t)
  : bool :=
  existsb (item_matches (str_of_itemId itemId))
    (Host.getImportedItemsByProvider h p).

Definition no_match (h : Host.t) (itemId : option Z) (p : MediaProvider.t)
  : bool :=
  negb (has_match h itemId p).

(** The warning of the loop, logged when more than one item matches. *)
Definition ambiguity_warning (h : Host.t) (p : MediaProvider.t)
    (itemId : option Z) (file : option string) : list Call :=
  if (1 <? length (matching h p itemId))%nat
  then [log (multiple_items_match p itemId file) LOGWARNING]
  else [].

(** A computation keeps the session attributes in existence. *)
Definition preserves (A : Type) (m : M A) : Prop :=
  forall w, initialised (self w) = true ->
            initialised (self (snd (m w))) = true.

(** No monitor thread survives its next step: whatever the host answers
    then, the thread is not alive afterwards, and the step changes neither
    the object nor the calls made. *)
Definition monitors_end (w : World) : Prop :=
  forall (th : Thread.t) (h : Host.t),
    let w' := _monitor_playback h th w in
    is_alive w' th = false /\ self w' = self w /\ calls w' = calls w.

(** The list behind a dict holds a key once. *)
Fixpoint dict_wf (V : Type) (d : dict V) : bool :=
  match d with
  | [] => true
  | (k, _) :: d' =>
      match dict_get k d' with
      | None => dict_wf d'
      | Some _ => false
      end
  end.

(** ** Sample inputs

    A provider ["plex1"] whose catalog holds an item without video tag and
    the items 7 and 42, a second provider with the same catalog, a video
    of one hour whose unique id is given, and the worlds of a session. *)
Module Sample.
Definition tag (id : string) : InfoTagVideo.t :=
  InfoTagVideo.mk
    (fun protocol => if String.eqb protocol PLEX_PROTOCOL then id else "")
    "movie".

Definition P1 : MediaProvider.t := MediaProvider.mk "plex1" "First server".
Definition P2 : MediaProvider.t := MediaProvider.mk "plex2" "Second server".

Definition catalog (_ : MediaProvider.t) : list ListItem.t :=
  [ListItem.mk None; ListItem.mk (Some (tag "7"));
   ListItem.mk (Some (tag "42"))].

Definition resolve (p : MediaProvider.t) (itemId : option Z)
    (_ : string) : option PlexItem.t :=
  match itemId with
  | Some n => Some (PlexItem.mk n (MediaProvider.getIdentifier p))
  | None => None
  end.

(** [half_seconds / 2] seconds, as a float. *)
Definition seconds (half_seconds : Z) : float :=
  binary_normalize prec emax half_seconds (-1) false.

(** The host while the video with unique id [id] plays, at elapsed time
    [half_seconds / 2]; the video lasts 3600.5 seconds. *)
Definition host (id : string) (half_seconds : Z) : Host.t :=
  Host.mk "/media/film.mkv" true (Some (tag id)) (seconds half_seconds)
    (seconds 7201) false catalog resolve.

Definition item42 : PlexItem.t := PlexItem.mk 42 "plex1".

(** A reporter with [P1] registered, then with [P1] and [P2]. *)
Definition one_provider : World :=
  mkWorld (set_providers [("plex1", P1)] __init__) [] [].
Definition two_providers : World :=
  mkWorld (set_providers [("plex1", P1); ("plex2", P2)] __init__) [] [].

(** A session with a matched item and nothing recorded yet. *)
Definition matched : World :=
  mkWorld
    (mkPlayer [("plex1", P1)] (Attr (Some "/media/film.mkv"))
       (Attr (Some item42)) (Attr (Some 42)) (Attr (Some P1))
       (Attr (Some 3600500)) (Attr (Some (Thread.mk 0)))
       (Attr (mkLastState None None)))
    [Waiting] [].

(** The same session after the ended callback: the thread is still inside
    its wait. *)
Definition cleared : World := snd (onPlayBackEnded matched).
End Sample.

(** ** Frames

    What a computation leaves as it is, as a relation between the world
    before and the world after. *)
Definition frames (R : World -> World -> Prop) (A : Type) (m : M A) : Prop :=
  forall w, R w (snd (m w)).

(** The provider registry is the same. *)
Definition same_registry (w w' : World) : Prop :=
  _providers (self w') = _providers (self w).

(** The same timeline updates have been sent. *)
Definition same_pushes (w w' : World) : Prop :=
  pushes w' = pushes w.

(** Everything but the last-state record is the same: the registry, the
    other session attributes and the threads. *)
Definition same_but_last_state (w w' : World) : Prop :=
  _providers (self w') = _providers (self w) /\
  _file (self w') = _file (self w) /\
  _item (self w') = _item (self w) /\
  _itemId (self w') = _itemId (self w) /\
  _mediaProvider (self w') = _mediaProvider (self w) /\
  _duration (self w') = _duration (self w) /\
  _playback_monitor (self w') = _playback_monitor (self w) /\
  threads w' = threads w.

(** On an object whose session attributes exist, the computation does not
    end with an [AttributeError]. *)
Definition attr_safe (A : Type) (m : M A) : Prop :=
  forall w, initialised (self w) = true -> fst (m w) <> Raise AttributeError.

(** The callbacks that assign to the provider registry. *)
Definition changes_registry (e : Event) : bool :=
  match e with
  | Host_calls (CAddProvider _) | Host_calls (CRemoveProvider _) => true
  | _ => false
  end.

(** The tests at the head of [_startPlayback] that end it at once: no
    file, not a video, no video tag, or no unique id under the protocol
    tag. *)
Definition nothing_to_match (h : Host.t) (file : option string) : bool :=
  negb (truthy file) ||
  negb (Host.isPlayingVideo h) ||
  match Host.getVideoInfoTag h with
  | None => true
  | Some videoInfoTag =>
      negb (truthy (InfoTagVideo.getUniqueID videoInfoTag PLEX_PROTOCOL))
  end.

(** ** More sample inputs

    A catalog that holds the item 7 twice, and a server that does not know
    the item asked for. *)
Module Edge.
Definition doubled (_ : MediaProvider.t) : list ListItem.t :=
  [ListItem.mk (Some (Sample.tag "7")); ListItem.mk None;
   ListItem.mk (Some (Sample.tag "7"))].

Definition host_doubled : Host.t :=
  Host.mk "/media/film.mkv" true (Some (Sample.tag "7")) (Sample.seconds 0)
    (Sample.seconds 7201) false doubled Sample.resolve.

Definition host_unresolved : Host.t :=
  Host.mk "/media/film.mkv" true (Some (Sample.tag "42")) (Sample.seconds 0)
    (Sample.seconds 7201) false Sample.catalog (fun _ _ _ => None).

Definition item7 : PlexItem.t := PlexItem.mk 7 "plex1".
End Edge.

Ltac open_world w :=
  let p := fresh "p" in
  destruct w as [p ? ?]; destruct p; simpl in *; subst.

(** Runs the monad operations, the projections and the setters, and
    nothing else. *)
Ltac run_monad :=
  cbv [bind ret lift raise getattr setattr call local getitem
       self threads calls
       _providers _file _item _itemId _mediaProvider _duration
       _playback_monitor _last_state ls_time ls_state
       set_providers set_file set_item set_itemId set_mediaProvider
       set_duration set_playback_monitor set_last_state
       Thread_new Thread_start Thread_isAlive set_pc Thread.ident
       negb orb andb fst snd].

Ltac run_monad_in H :=
  cbv [bind ret lift raise getattr setattr call local getitem
       self threads calls
       _providers _file _item _itemId _mediaProvider _duration
       _playback_monitor _last_state ls_time ls_state
       set_providers set_file set_item set_itemId set_mediaProvider
       set_duration set_playback_monitor set_last_state
       Thread_new Thread_start Thread_isAlive set_pc Thread.ident
       negb orb andb fst snd] in H.

Unset Implicit Arguments.

(** * Properties *)

(** ** State synchronisation *)

Lemma truthy_string_cons (s : string) :
  truthy s = true -> exists c s', s = String c s'.
Proof.
  destruct s as [|c s']; [discriminate | eauto].
Qed.

Lemma truthy_nonzero (t : Z) : t <> 0 -> truthy (Some t) = true.
Proof.
  intros Ht. cbv [truthy Truthy_option Truthy_Z].
  destruct (Z.eqb_spec t 0); [contradiction | reflexivity].
Qed.

(** A call with both parameters falsy returns at the first test. *)
Lemma sync_falsy_is_skip (state : option string) (time : option Z) (w : World) :
  truthy state = false -> truthy time = false ->
  _syncPlaybackState state time w = (Ok tt, w).
Proof.
  intros Hs Ht. unfold _syncPlaybackState. rewrite Hs, Ht. reflexivity.
Qed.

Lemma sync_time_zero_is_skip (w : World) :
  _syncPlaybackState None (Some 0) w = (Ok tt, w).
Proof.
  apply sync_falsy_is_skip; reflexivity.
Qed.

(** A call with no matched item returns at the second test. *)
Lemma sync_without_item (state : option string) (time : option Z) (w : World) :
  _item (self w) = Attr None ->
  _syncPlaybackState state time w = (Ok tt, w).
Proof.
  intros Hi. unfold _syncPlaybackState.
  destruct (negb (truthy state) && negb (truthy time)); [reflexivity|].
  unfold bind, getattr. rewrite Hi. reflexivity.
Qed.

(** A state alone, nothing recorded before: the state is kept, nothing is
    sent. *)
Lemma sync_state_only_buffers (s : string) (it : PlexItem.t) (w : World) :
  truthy s = true ->
  _item (self w) = Attr (Some it) ->
  _last_state (self w) = Attr (mkLastState None None) ->
  _syncPlaybackState (Some s) None w
  = (Ok tt,
     mkWorld (set_last_state (mkLastState None (Some s)) (self w))
       (threads w) (calls w)).
Proof.
  intros Hs Hi Hl. apply truthy_string_cons in Hs as (c & s' & ->).
  open_world w. reflexivity.
Qed.

(** A time other than zero alone, a state pending: one update is sent. *)
Lemma sync_time_only_pushes (t : Z) (s : string) (lt : option Z)
    (it : PlexItem.t) (d : option Z) (w : World) :
  t <> 0 ->
  truthy s = true ->
  _item (self w) = Attr (Some it) ->
  _duration (self w) = Attr d ->
  _last_state (self w) = Attr (mkLastState lt (Some s)) ->
  _syncPlaybackState None (Some t) w
  = (Ok tt,
     mkWorld (set_last_state (mkLastState (Some t) (Some s)) (self w))
       (threads w) (calls w ++ [updateTimeline it t s d])).
Proof.
  intros Ht Hs Hi Hd Hl. apply truthy_string_cons in Hs as (c & s' & ->).
  pose proof (truthy_nonzero t Ht) as Htt.
  open_world w. unfold _syncPlaybackState. rewrite Htt. reflexivity.
Qed.

(** A state and a time together: both are recorded and sent. *)
Lemma sync_state_and_time_pushes (s : string) (t : Z) (ls : LastState)
    (it : PlexItem.t) (d : option Z) (w : World) :
  truthy s = true ->
  _item (self w) = Attr (Some it) ->
  _duration (self w) = Attr d ->
  _last_state (self w) = Attr ls ->
  _syncPlaybackState (Some s) (Some t) w
  = (Ok tt,
     mkWorld (set_last_state (mkLastState (Some t) (Some s)) (self w))
       (threads w) (calls w ++ [updateTimeline it t s d])).
Proof.
  intros Hs Hi Hd Hl. apply truthy_string_cons in Hs as (c & s' & ->).
  open_world w. reflexivity.
Qed.

Lemma pushes_app (w : World) (l : list Call) :
  filter is_push (calls w ++ l) = pushes w ++ filter is_push l.
Proof. unfold pushes. apply filter_app. Qed.

(** C5, at the input where it fails.  A call of the state synchronisation
    that supplies no state and the time 0 returns at the first test
    ([not state and not time]): whatever the session holds, nothing is
    recorded as last time and nothing is sent. *)
Theorem sync_time_zero_returns_early (w : World) :
  _syncPlaybackState None (Some 0) w = (Ok tt, w).
Proof.
  apply sync_falsy_is_skip; reflexivity.
Qed.

(** C1.  On a session with a matched item and an empty last-state record, a
    call supplying only a state sends nothing.  A following call supplying
    only a time [t] sends exactly one update, carrying [t], the pending
    state and the session duration, when [t] is not 0; when [t] is 0 it
    sends nothing. *)
Theorem sync_gating (s : string) (t : Z) (it : PlexItem.t) (d : option Z)
    (w : World) :
  truthy s = true ->
  _item (self w) = Attr (Some it) ->
  _duration (self w) = Attr d ->
  _last_state (self w) = Attr (mkLastState None None) ->
  let w1 := snd (_syncPlaybackState (Some s) None w) in
  let w2 := snd (_syncPlaybackState None (Some t) w1) in
  fst (_syncPlaybackState (Some s) None w) = Ok tt /\
  pushes w1 = pushes w /\
  fst (_syncPlaybackState None (Some t) w1) = Ok tt /\
  (t <> 0 -> pushes w2 = pushes w ++ [updateTimeline it t s d]) /\
  (t = 0 -> pushes w2 = pushes w).
Proof.
  intros Hs Hi Hd Hl w1 w2.
  pose proof (sync_state_only_buffers s it w Hs Hi Hl) as E1.
  subst w2 w1. rewrite E1. cbn [fst snd].
  set (w1 := mkWorld _ _ _).
  split; [reflexivity|]. split; [reflexivity|].
  destruct (Z.eq_dec t 0) as [->|Ht].
  - rewrite sync_time_zero_is_skip. cbn [fst snd].
    split; [reflexivity|]. split; [congruence | reflexivity].
  - rewrite (sync_time_only_pushes t s None it d);
      try assumption; try (subst w1; open_world w; reflexivity).
    cbn [fst snd]. split; [reflexivity|]. split; [|congruence].
    intros _. unfold pushes at 1. cbn [calls]. subst w1. cbn [calls].
    rewrite pushes_app. reflexivity.
Qed.

Lemma sync_gating_witness :
  truthy PLEX_PLAYER_PAUSED = true /\
  _item (self Sample.matched) = Attr (Some Sample.item42) /\
  _duration (self Sample.matched) = Attr (Some 3600500) /\
  _last_state (self Sample.matched) = Attr (mkLastState None None) /\
  let w1 := snd (_syncPlaybackState (Some PLEX_PLAYER_PAUSED) None
                   Sample.matched) in
  let w2 := snd (_syncPlaybackState None (Some 0) w1) in
  fst (_syncPlaybackState (Some PLEX_PLAYER_PAUSED) None Sample.matched)
  = Ok tt /\
  pushes w1 = pushes Sample.matched /\
  fst (_syncPlaybackState None (Some 0) w1) = Ok tt /\
  (0 <> 0 ->
   pushes w2
   = pushes Sample.matched
     ++ [updateTimeline Sample.item42 0 PLEX_PLAYER_PAUSED (Some 3600500)]) /\
  (0 = 0 -> pushes w2 = pushes Sample.matched).
Proof.
  split; [reflexivity|]. split; [reflexivity|]. split; [reflexivity|].
  split; [reflexivity|].
  apply (sync_gating PLEX_PLAYER_PAUSED 0 Sample.item42 (Some 3600500)
           Sample.matched); reflexivity.
Defined.

(** ** The provider registry *)

Section Dict.
Variable V : Type.
Implicit Types (d : dict V) (k : string) (v : V).

Lemma dict_get_set_eq d k v : dict_get k (dict_set k v d) = Some v.
Proof.
  induction d as [|[k' v'] d IH]; simpl.
  - rewrite String.eqb_refl. reflexivity.
  - destruct (String.eqb_spec k k') as [->|Hne]; simpl.
    + rewrite String.eqb_refl. reflexivity.
    + destruct (String.eqb_spec k k'); [contradiction | exact IH].
Qed.

Lemma dict_get_set_ne d k k' v :
  k' <> k -> dict_get k' (dict_set k v d) = dict_get k' d.
Proof.
  intros Hne. induction d as [|[k0 v0] d IH]; simpl.
  - destruct (String.eqb_spec k' k); [contradiction | reflexivity].
  - destruct (String.eqb_spec k k0) as [->|Hk]; simpl.
    + destruct (String.eqb_spec k' k0); [contradiction | reflexivity].
    + destruct (String.eqb_spec k' k0); [reflexivity | exact IH].
Qed.

Lemma dict_wf_set d k v : dict_wf d = true -> dict_wf (dict_set k v d) = true.
Proof.
  induction d as [|[k0 v0] d IH]; simpl; [reflexivity|].
  destruct (dict_get k0 d) eqn:E0; [discriminate|]. intros Hwf.
  destruct (String.eqb_spec k k0) as [->|Hk]; simpl.
  - rewrite E0. exact Hwf.
  - rewrite dict_get_set_ne by congruence. rewrite E0. exact (IH Hwf).
Qed.

Lemma dict_del_missing d k : dict_get k d = None <-> dict_del k d = None.
Proof.
  induction d as [|[k0 v0] d IH]; simpl; [tauto|].
  destruct (String.eqb_spec k k0); [split; discriminate|].
  destruct (dict_del k d); simpl.
  - split; [|discriminate]. intros H. apply IH in H. discriminate.
  - split; [reflexivity|]. intros _. apply IH. reflexivity.
Qed.

Lemma dict_get_del_ne d d' k k' :
  k' <> k -> dict_del k d = Some d' -> dict_get k' d' = dict_get k' d.
Proof.
  intros Hne. revert d'. induction d as [|[k0 v0] d IH]; simpl; intros d' Hd.
  - discriminate.
  - destruct (String.eqb_spec k k0) as [->|Hk].
    + injection Hd as <-.
      destruct (String.eqb_spec k' k0); [contradiction | reflexivity].
    + destruct (dict_del k d) as [d0|]; [|discriminate].
      injection Hd as <-. simpl.
      destruct (String.eqb_spec k' k0); [reflexivity|].
      apply IH. reflexivity.
Qed.

Lemma dict_get_del_eq d d' k :
  dict_wf d = true -> dict_del k d = Some d' -> dict_get k d' = None.
Proof.
  revert d'. induction d as [|[k0 v0] d IH]; simpl; intros d' Hwf Hd.
  - discriminate.
  - destruct (dict_get k0 d) eqn:E0; [discriminate|].
    destruct (String.eqb_spec k k0) as [->|Hk].
    + injection Hd as <-. exact E0.
    + destruct (dict_del k d) as [d0|]; [|discriminate].
      injection Hd as <-. simpl.
      destruct (String.eqb_spec k k0); [contradiction|].
      apply IH; [exact Hwf | reflexivity].
Qed.

Lemma dict_wf_del d d' k :
  dict_wf d = true -> dict_del k d = Some d' -> dict_wf d' = true.
Proof.
  revert d'. induction d as [|[k0 v0] d IH]; simpl; intros d' Hwf Hd.
  - discriminate.
  - destruct (dict_get k0 d) eqn:E0; [discriminate|].
    destruct (String.eqb_spec k k0) as [->|Hk].
    + injection Hd as <-. exact Hwf.
    + destruct (dict_del k d) as [d0|] eqn:Ed; [|discriminate].
      injection Hd as <-. simpl.
      rewrite (dict_get_del_ne d d0 k k0) by congruence.
      rewrite E0. apply IH; [exact Hwf | reflexivity].
Qed.

End Dict.

(** C8.  [AddProvider] raises [ValueError] exactly when its argument is
    [None]; given a provider it binds the provider's identifier to it,
    replacing what the identifier was bound to and leaving the other
    identifiers as they were.  [RemoveProvider] raises [ValueError] exactly
    when its argument is [None]; given a provider whose identifier is not
    registered it fails (with [KeyError], the registry untouched), and
    otherwise the identifier is no longer bound afterwards while the others
    are as before. *)
Theorem provider_registry (mp : option MediaProvider.t) (w : World) :
  dict_wf (_providers (self w)) = true ->
  (fst (AddProvider mp w) = Raise ValueError <-> mp = None) /\
  (forall p, mp = Some p ->
     exists d',
       AddProvider mp w
       = (Ok tt, mkWorld (set_providers d' (self w)) (threads w) (calls w)) /\
       dict_wf d' = true /\
       dict_get (MediaProvider.getIdentifier p) d' = Some p /\
       forall k, k <> MediaProvider.getIdentifier p ->
                 dict_get k d' = dict_get k (_providers (self w))) /\
  (fst (RemoveProvider mp w) = Raise ValueError <-> mp = None) /\
  (forall p, mp = Some p ->
     dict_get (MediaProvider.getIdentifier p) (_providers (self w)) = None ->
     RemoveProvider mp w = (Raise KeyError, w)) /\
  (forall p, mp = Some p ->
     dict_get (MediaProvider.getIdentifier p) (_providers (self w)) <> None ->
     exists d',
       RemoveProvider mp w
       = (Ok tt, mkWorld (set_providers d' (self w)) (threads w) (calls w)) /\
       dict_wf d' = true /\
       dict_get (MediaProvider.getIdentifier p) d' = None /\
       forall k, k <> MediaProvider.getIdentifier p ->
                 dict_get k d' = dict_get k (_providers (self w))).
Proof.
  intros Hwf. repeat split.
  - destruct mp; [discriminate | reflexivity].
  - intros ->. reflexivity.
  - intros p ->.
    exists (dict_set (MediaProvider.getIdentifier p) p (_providers (self w))).
    split; [reflexivity|]. split; [apply dict_wf_set; exact Hwf|].
    split; [apply dict_get_set_eq|].
    intros k Hk. apply dict_get_set_ne. exact Hk.
  - destruct mp as [p|]; [|reflexivity]. unfold RemoveProvider.
    destruct (dict_del _ _); discriminate.
  - intros ->. reflexivity.
  - intros p -> Hmiss. unfold RemoveProvider.
    apply dict_del_missing in Hmiss. rewrite Hmiss. reflexivity.
  - intros p -> Hreg. unfold RemoveProvider.
    destruct (dict_del (MediaProvider.getIdentifier p) (_providers (self w)))
      as [d'|] eqn:Ed.
    + exists d'. split; [reflexivity|].
      split; [exact (dict_wf_del _ _ _ _ Hwf Ed)|].
      split; [exact (dict_get_del_eq _ _ _ _ Hwf Ed)|].
      intros k Hk. exact (dict_get_del_ne _ _ _ _ _ Hk Ed).
    + apply dict_del_missing in Ed. contradiction.
Qed.

(** ** The matching procedure *)

Lemma truthy_matching (h : Host.t) (itemId : option Z) (p : MediaProvider.t) :
  truthy (matching h p itemId) = has_match h itemId p.
Proof.
  unfold matching, has_match.
  induction (Host.getImportedItemsByProvider h p) as [|i l IH]; simpl.
  - reflexivity.
  - destruct (item_matches (str_of_itemId itemId) i); [reflexivity | exact IH].
Qed.

Lemma no_match_matching (h : Host.t) (itemId : option Z)
    (p : MediaProvider.t) :
  no_match h itemId p = negb (truthy (matching h p itemId)).
Proof. unfold no_match. rewrite truthy_matching. reflexivity. Qed.

Lemma for_mediaProvider_skips (h : Host.t) (itemId : option Z)
    (ps : list MediaProvider.t) (w : World) :
  _itemId (self w) = Attr itemId ->
  forallb (no_match h itemId) ps = true ->
  for_mediaProvider h ps w
  = (Ok tt, mkWorld (self w) (threads w) (calls w ++ map getImportedItems ps)).
Proof.
  revert w. induction ps as [|p ps IH]; intros w Hid Hno.
  - simpl. rewrite app_nil_r. destruct w; reflexivity.
  - simpl in Hno. apply andb_prop in Hno as [Hp Hps].
    cbn [for_mediaProvider]. unfold bind at 1. cbn [call].
    unfold bind at 1, getattr. cbn [self]. rewrite Hid.
    rewrite no_match_matching in Hp. rewrite Hp.
    rewrite IH; [|exact Hid|exact Hps]. cbn [self threads calls map].
    rewrite <- app_assoc. reflexivity.
Qed.

Lemma for_mediaProvider_selects (h : Host.t) (itemId : option Z)
    (file : option string) (pre post : list MediaProvider.t)
    (p : MediaProvider.t) (w : World) :
  _itemId (self w) = Attr itemId ->
  _file (self w) = Attr file ->
  forallb (no_match h itemId) pre = true ->
  no_match h itemId p = false ->
  for_mediaProvider h (pre ++ p :: post) w
  = (Ok tt,
     mkWorld (set_mediaProvider (Some p) (self w)) (threads w)
       (calls w ++ map getImportedItems pre ++ [getImportedItems p]
          ++ ambiguity_warning h p itemId file)).
Proof.
  revert w. induction pre as [|q pre IH]; intros w Hid Hf Hpre Hp.
  - cbn [app for_mediaProvider map]. unfold bind at 1. cbn [call].
    unfold bind at 1, getattr. cbn [self]. rewrite Hid.
    rewrite no_match_matching in Hp. rewrite Hp. unfold ambiguity_warning.
    destruct (1 <? length (matching h p itemId))%nat.
    + unfold bind, getattr, call, setattr. cbn [self threads calls].
      rewrite Hf. cbn [self threads calls app].
      rewrite <- app_assoc. reflexivity.
    + unfold bind, ret, setattr. cbn [self threads calls app].
      reflexivity.
  - simpl in Hpre. apply andb_prop in Hpre as [Hq Hpre].
    cbn [app for_mediaProvider]. unfold bind at 1. cbn [call].
    unfold bind at 1, getattr. cbn [self]. rewrite Hid.
    rewrite no_match_matching in Hq. rewrite Hq.
    rewrite IH; [|exact Hid|exact Hf|exact Hpre|exact Hp].
    cbn [self threads calls map]. rewrite <- !app_assoc. reflexivity.
Qed.

Lemma int_of_digits (s : string) : isdigit s = true -> int_of_str s = Ok (digits_value 0 s).
Proof. intros H. unfold int_of_str. rewrite H. reflexivity. Qed.

Lemma startPlayback_non_digit (h : Host.t) (w : World) (f : string) (tag : InfoTagVideo.t) :
  _file (self w) = Attr (Some f) ->
  truthy f = true ->
  Host.isPlayingVideo h = true ->
  Host.getVideoInfoTag h = Some tag ->
  truthy (InfoTagVideo.getUniqueID tag PLEX_PROTOCOL) = true ->
  isdigit (InfoTagVideo.getUniqueID tag PLEX_PROTOCOL) = false ->
  _startPlayback h w = (Raise UnboundLocalError, w).
Proof.
  intros Hf Hft Hv Htag Hid Hnd.
  unfold _startPlayback. unfold bind at 1, getattr. rewrite Hf.
  change (truthy (Some f)) with (truthy f). rewrite Hft, Hv, Htag, Hid, Hnd.
  reflexivity.
Qed.

Lemma list_set_last (A : Type) (l : list A) (x y : A) :
  list_set (length l) x (l ++ [y]) = l ++ [x].
Proof. induction l as [|a l IH]; simpl; [reflexivity | rewrite IH; reflexivity]. Qed.

Lemma isdigit_truthy (s : string) : isdigit s = true -> truthy s = true.
Proof. unfold isdigit. intros H. apply andb_prop in H. tauto. Qed.

Lemma startPlayback_no_match (h : Host.t) (w : World) (f : string)
    (tag : InfoTagVideo.t) :
  _file (self w) = Attr (Some f) ->
  truthy f = true ->
  _mediaProvider (self w) = Attr None ->
  Host.isPlayingVideo h = true ->
  Host.getVideoInfoTag h = Some tag ->
  isdigit (InfoTagVideo.getUniqueID tag PLEX_PROTOCOL) = true ->
  forallb (no_match h (Some (item_id tag))) (dict_values (_providers (self w)))
  = true ->
  _startPlayback h w
  = (Ok tt,
     mkWorld
       (mkPlayer (_providers (self w)) (Attr None) (Attr None) (Attr None)
          (Attr None) (Attr None) (Attr None) (Attr (mkLastState None None)))
       (threads w)
       (calls w ++ map getImportedItems (dict_values (_providers (self w))))).
Proof.
  intros Hf Hft Hmp Hv Htag Hd Hno.
  unfold _startPlayback. unfold bind at 1, getattr at 1. rewrite Hf.
  change (truthy (Some f)) with (truthy f).
  rewrite Hft, Hv, Htag, (isdigit_truthy _ Hd), Hd. cbn [negb].
  unfold bind at 1. cbn [ret]. unfold bind at 1, lift.
  rewrite (int_of_digits _ Hd). unfold bind at 1. cbn [setattr].
  unfold bind at 1.
  rewrite (for_mediaProvider_skips h (Some (item_id tag))); [|reflexivity|exact Hno].
  cbn [self threads calls set_itemId _providers _mediaProvider].
  unfold bind at 1, getattr at 1. cbn [self set_itemId _mediaProvider]. rewrite Hmp.
  reflexivity.
Qed.

Lemma startPlayback_selects (h : Host.t) (w : World) (f : string)
    (tag : InfoTagVideo.t) (pre post : list MediaProvider.t)
    (p : MediaProvider.t) :
  _file (self w) = Attr (Some f) ->
  truthy f = true ->
  Host.isPlayingVideo h = true ->
  Host.getVideoInfoTag h = Some tag ->
  isdigit (InfoTagVideo.getUniqueID tag PLEX_PROTOCOL) = true ->
  dict_values (_providers (self w)) = pre ++ p :: post ->
  forallb (no_match h (Some (item_id tag))) pre = true ->
  no_match h (Some (item_id tag)) p = false ->
  _mediaProvider (self (snd (_startPlayback h w))) = Attr (Some p) /\
  exists tail,
    calls (snd (_startPlayback h w))
    = calls w ++ map getImportedItems pre ++ [getImportedItems p]
        ++ ambiguity_warning h p (Some (item_id tag)) (Some f)
        ++ [getPlexItem p (Some (item_id tag)) (InfoTagVideo.getMediaType tag)]
        ++ tail /\
    (tail = [] \/ exists th, tail = [threadStart th]).
Proof.
  intros Hf Hft Hv Htag Hd Hps Hpre Hp.
  remember (_startPlayback h w) as r eqn:Er.
  unfold _startPlayback in Er. unfold bind at 1, getattr at 1 in Er.
  rewrite Hf in Er. change (truthy (Some f)) with (truthy f) in Er.
  rewrite Hft, Hv, Htag, (isdigit_truthy _ Hd), Hd in Er. cbn [negb] in Er.
  unfold bind at 1 in Er. cbn [ret] in Er. unfold bind at 1, lift in Er.
  rewrite (int_of_digits _ Hd) in Er. unfold bind at 1 in Er.
  cbn [setattr] in Er. unfold bind at 1 in Er.
  cbn [self set_itemId _providers] in Er. rewrite Hps in Er.
  rewrite (for_mediaProvider_selects h (Some (item_id tag)) (Some f)) in Er;
    [|reflexivity|exact Hf|exact Hpre|exact Hp].
  destruct w as [[ps fl it iid mp du mon ls] ths cs].
  run_monad_in Er.
  destruct (int_of_float _) as [d|e].
  2:{ subst r. run_monad. split; [reflexivity|].
      exists []. rewrite <- !app_assoc. split; [reflexivity | left; reflexivity]. }
  destruct mon as [|[th|]].
  - subst r. run_monad. split; [reflexivity|].
    exists []. rewrite <- !app_assoc. split; [reflexivity | left; reflexivity].
  - change (truthy (Some th)) with true in Er. run_monad_in Er.
    destruct (is_alive _ th); subst r; run_monad; (split; [reflexivity|]).
    + exists []. rewrite <- !app_assoc. split; [reflexivity | left; reflexivity].
    + eexists. split; [|right; eexists; reflexivity].
      rewrite <- !app_assoc. reflexivity.
  - change (truthy (@None Thread.t)) with false in Er. run_monad_in Er.
    subst r; run_monad. split; [reflexivity|].
    eexists. split; [|right; eexists; reflexivity].
    rewrite <- !app_assoc. reflexivity.
Qed.

Lemma startPlayback_matched (h : Host.t) (w : World) (f : string)
    (tag : InfoTagVideo.t) (pre post : list MediaProvider.t)
    (p : MediaProvider.t) (d : Z) :
  _file (self w) = Attr (Some f) ->
  truthy f = true ->
  _playback_monitor (self w) = Attr None ->
  Host.isPlayingVideo h = true ->
  Host.getVideoInfoTag h = Some tag ->
  isdigit (InfoTagVideo.getUniqueID tag PLEX_PROTOCOL) = true ->
  dict_values (_providers (self w)) = pre ++ p :: post ->
  forallb (no_match h (Some (item_id tag))) pre = true ->
  no_match h (Some (item_id tag)) p = false ->
  int_of_float (float_mul (Host.getTotalTime h) (float_of_int 1000)) = Ok d ->
  let th := Thread.mk (length (threads w)) in
  _startPlayback h w
  = (Ok tt,
     mkWorld
       (mkPlayer (_providers (self w)) (Attr (Some f))
          (Attr (Host.getPlexItemDetails h p (Some (item_id tag))
                   (InfoTagVideo.getMediaType tag)))
          (Attr (Some (item_id tag))) (Attr (Some p)) (Attr (Some d))
          (Attr (Some th)) (_last_state (self w)))
       (threads w ++ [AtLoopTest])
       (calls w ++ map getImportedItems pre ++ [getImportedItems p]
          ++ ambiguity_warning h p (Some (item_id tag)) (Some f)
          ++ [getPlexItem p (Some (item_id tag))
                (InfoTagVideo.getMediaType tag)]
          ++ [threadStart th])).
Proof.
  intros Hf Hft Hmon Hv Htag Hd Hps Hpre Hp Hdur th. subst th.
  unfold _startPlayback. unfold bind at 1, getattr at 1. rewrite Hf.
  change (truthy (Some f)) with (truthy f).
  rewrite Hft, Hv, Htag, (isdigit_truthy _ Hd), Hd. cbn [negb].
  unfold bind at 1. cbn [ret]. unfold bind at 1, lift.
  rewrite (int_of_digits _ Hd). unfold bind at 1. cbn [setattr].
  unfold bind at 1. cbn [self set_itemId _providers]. rewrite Hps.
  rewrite (for_mediaProvider_selects h (Some (item_id tag)) (Some f));
    [|reflexivity|exact Hf|exact Hpre|exact Hp].
  rewrite Hdur.
  destruct w as [[ps fl it iid mp du mon ls] ths cs].
  cbn [self _file _playback_monitor] in Hf, Hmon. subst fl mon.
  run_monad. change (truthy (@None Thread.t)) with false. run_monad.
  rewrite list_set_last. rewrite <- !app_assoc. reflexivity.
Qed.

(** C2, on the inputs where it fails.  When the unique id of the playing
    video under the protocol tag is present and is not a digit string, the
    matching procedure raises: the argument of the error log,
    [matchingItems[0]], reads a local that is bound further down, in the
    loop.  Nothing is logged, the session is left as it was, and the
    A/V-started callback ends with the same exception. *)
Theorem non_digit_id_raises (h : Host.t) (w : World) (f : string)
    (tag : InfoTagVideo.t) :
  _file (self w) = Attr (Some f) ->
  truthy f = true ->
  Host.isPlayingVideo h = true ->
  Host.getVideoInfoTag h = Some tag ->
  truthy (InfoTagVideo.getUniqueID tag PLEX_PROTOCOL) = true ->
  isdigit (InfoTagVideo.getUniqueID tag PLEX_PROTOCOL) = false ->
  _startPlayback h w = (Raise UnboundLocalError, w) /\
  onAVStarted h w = (Raise UnboundLocalError, w).
Proof.
  intros Hf Hft Hv Htag Hid Hnd.
  pose proof (startPlayback_non_digit h w f tag Hf Hft Hv Htag Hid Hnd) as E.
  split; [exact E|]. unfold onAVStarted, bind. rewrite E. reflexivity.
Qed.

Lemma non_digit_id_raises_witness :
  let h := Sample.host "abc" 0 in
  let w := snd (onPlayBackStarted h Sample.one_provider) in
  _file (self w) = Attr (Some "/media/film.mkv") /\
  truthy "/media/film.mkv" = true /\
  Host.isPlayingVideo h = true /\
  Host.getVideoInfoTag h = Some (Sample.tag "abc") /\
  truthy (InfoTagVideo.getUniqueID (Sample.tag "abc") PLEX_PROTOCOL) = true /\
  isdigit (InfoTagVideo.getUniqueID (Sample.tag "abc") PLEX_PROTOCOL) = false /\
  _startPlayback h w = (Raise UnboundLocalError, w) /\
  onAVStarted h w = (Raise UnboundLocalError, w).
Proof.
  intros h w. repeat (split; [reflexivity|]).
  apply (non_digit_id_raises h w "/media/film.mkv" (Sample.tag "abc"));
    reflexivity.
Defined.

Lemma no_push_in_fetches (ps : list MediaProvider.t) :
  filter is_push (map getImportedItems ps) = [].
Proof.
  induction ps as [|p ps IH]; simpl; [reflexivity | exact IH].
Qed.

Lemma pushes_fetches (w : World) (ps : list MediaProvider.t) :
  filter is_push (calls w ++ map getImportedItems ps) = pushes w.
Proof.
  rewrite pushes_app, no_push_in_fetches. apply app_nil_r.
Qed.

(** The matching procedure when no catalog matches and the session still
    holds a provider: the test after the loop finds that provider. *)
Lemma startPlayback_provider_left (h : Host.t) (w : World) (f : string)
    (tag : InfoTagVideo.t) (p : MediaProvider.t) (d : Z)
    (mon : option Thread.t) :
  _file (self w) = Attr (Some f) ->
  truthy f = true ->
  _mediaProvider (self w) = Attr (Some p) ->
  _playback_monitor (self w) = Attr mon ->
  Host.isPlayingVideo h = true ->
  Host.getVideoInfoTag h = Some tag ->
  isdigit (InfoTagVideo.getUniqueID tag PLEX_PROTOCOL) = true ->
  forallb (no_match h (Some (item_id tag))) (dict_values (_providers (self w)))
  = true ->
  int_of_float (float_mul (Host.getTotalTime h) (float_of_int 1000)) = Ok d ->
  let new := Thread.mk (length (threads w)) in
  let found :=
    calls w ++ map getImportedItems (dict_values (_providers (self w)))
      ++ [getPlexItem p (Some (item_id tag)) (InfoTagVideo.getMediaType tag)] in
  let session (monitor : option Thread.t) :=
    mkPlayer (_providers (self w)) (Attr (Some f))
      (Attr (Host.getPlexItemDetails h p (Some (item_id tag))
               (InfoTagVideo.getMediaType tag)))
      (Attr (Some (item_id tag))) (Attr (Some p)) (Attr (Some d))
      (Attr monitor) (_last_state (self w)) in
  _startPlayback h w
  = (Ok tt,
     if match mon with Some th => is_alive w th | None => false end
     then mkWorld (session mon) (threads w) found
     else mkWorld (session (Some new)) (threads w ++ [AtLoopTest])
            (found ++ [threadStart new])).
Proof.
  intros Hf Hft Hmp Hmon Hv Htag Hd Hno Hdur new found session.
  subst new found session.
  unfold _startPlayback. unfold bind at 1, getattr at 1. rewrite Hf.
  change (truthy (Some f)) with (truthy f).
  rewrite Hft, Hv, Htag, (isdigit_truthy _ Hd), Hd. cbn [negb].
  unfold bind at 1. cbn [ret]. unfold bind at 1, lift.
  rewrite (int_of_digits _ Hd). unfold bind at 1. cbn [setattr].
  unfold bind at 1.
  rewrite (for_mediaProvider_skips h (Some (item_id tag)));
    [|reflexivity|exact Hno].
  rewrite Hdur.
  destruct w as [[ps fl it iid mp du m ls] ths cs].
  cbn [self _file _mediaProvider _playback_monitor] in Hf, Hmp, Hmon.
  subst fl mp m.
  run_monad. destruct mon as [th|].
  - change (truthy (Some th)) with true.
    unfold is_alive, thread_pc. cbn [threads negb orb].
    destruct (nth (Thread.ident th) ths Exited); run_monad;
      rewrite <- ?app_assoc, ?list_set_last; reflexivity.
  - change (truthy (@None Thread.t)) with false. run_monad.
    rewrite <- ?app_assoc, ?list_set_last. reflexivity.
Qed.

(** C4, with the input where it fails.  At an A/V start on a video with a
    digit-string id that no registered provider's catalog matches:
    - when the session holds no provider (as the playback-started callback
      leaves it), the callback returns, every session attribute is [None]
      and the last-state record is empty afterwards, no thread is created
      or started, and the only calls made are the catalog fetches;
    - when the session still holds the provider of an earlier A/V start,
      the test after the loop finds it: the session is not reset, the
      remote item is asked of that provider, and once it is given the
      callback sends an update for it (and starts a monitor thread when
      the handle is empty). *)
Theorem no_match_resets_unless_provider_left (h : Host.t) (w : World)
    (f : string) (tag : InfoTagVideo.t) :
  _file (self w) = Attr (Some f) ->
  truthy f = true ->
  Host.isPlayingVideo h = true ->
  Host.getVideoInfoTag h = Some tag ->
  isdigit (InfoTagVideo.getUniqueID tag PLEX_PROTOCOL) = true ->
  forallb (no_match h (Some (item_id tag))) (dict_values (_providers (self w)))
  = true ->
  (_mediaProvider (self w) = Attr None ->
   exists w',
     onAVStarted h w = (Ok tt, w') /\
     idle (self w') /\
     _providers (self w') = _providers (self w) /\
     threads w' = threads w /\
     calls w'
     = calls w ++ map getImportedItems (dict_values (_providers (self w))) /\
     pushes w' = pushes w) /\
  (forall (p : MediaProvider.t) (it : PlexItem.t) (d : Z)
          (mon : option Thread.t) (ls : LastState),
     _mediaProvider (self w) = Attr (Some p) ->
     _playback_monitor (self w) = Attr mon ->
     _last_state (self w) = Attr ls ->
     Host.getPlexItemDetails h p (Some (item_id tag))
       (InfoTagVideo.getMediaType tag) = Some it ->
     int_of_float (float_mul (Host.getTotalTime h) (float_of_int 1000))
     = Ok d ->
     exists w',
       onAVStarted h w = (Ok tt, w') /\
       _file (self w') = Attr (Some f) /\
       _item (self w') = Attr (Some it) /\
       _mediaProvider (self w') = Attr (Some p) /\
       In (getPlexItem p (Some (item_id tag)) (InfoTagVideo.getMediaType tag))
         (calls w') /\
       pushes w'
       = pushes w ++ [updateTimeline it 0 PLEX_PLAYER_PLAYING (Some d)] /\
       (mon = None -> threads w' = threads w ++ [AtLoopTest])).
Proof.
  intros Hf Hft Hv Htag Hd Hno. split.
  - intros Hmp.
    pose proof (startPlayback_no_match h w f tag Hf Hft Hmp Hv Htag Hd Hno)
      as E.
    eexists. split.
    + unfold onAVStarted, bind. rewrite E. apply sync_without_item.
      reflexivity.
    + cbn [self threads calls _providers].
      split; [repeat split|]. do 3 (split; [reflexivity|]).
      unfold pushes at 1. cbn [calls]. apply pushes_fetches.
  - intros p it d mon ls Hmp Hmon Hls Hit Hdur.
    pose proof (startPlayback_provider_left h w f tag p d mon Hf Hft Hmp Hmon
                  Hv Htag Hd Hno Hdur) as E.
    cbv zeta in E. rewrite Hit in E.
    set (alive := match mon with Some th => is_alive w th | None => false end)
      in E.
    assert (Hnone : mon = None -> alive = false) by (intros ->; reflexivity).
    destruct alive; eexists; (split;
      [ unfold onAVStarted, bind; rewrite E;
        apply (sync_state_and_time_pushes PLEX_PLAYER_PLAYING 0 ls it (Some d));
        [reflexivity | reflexivity | reflexivity | exact Hls] |]);
      cbn [self threads calls set_last_state _file _item _mediaProvider];
      do 3 (split; [reflexivity|]).
    + split; [apply in_or_app; left; apply in_or_app; right; apply in_or_app;
              right; left; reflexivity|].
      split; [|intros Hm; specialize (Hnone Hm); discriminate].
      unfold pushes. cbn [calls]. rewrite !filter_app, no_push_in_fetches.
      cbn [filter is_push app]. rewrite app_nil_r. reflexivity.
    + split; [apply in_or_app; left; apply in_or_app; left; apply in_or_app;
              right; apply in_or_app; right; left; reflexivity|].
      split; [|intros _; reflexivity].
      unfold pushes. cbn [calls]. rewrite !filter_app, no_push_in_fetches.
      cbn [filter is_push app]. rewrite !app_nil_r. reflexivity.
Qed.

Lemma no_match_resets_unless_provider_left_witness :
  let playing42 := Sample.host "42" 0 in
  let h := Sample.host "9" 0 in
  let w := run Sample.one_provider
             [(playing42, Host_calls CPlayBackStarted);
              (playing42, Host_calls CAVStarted)] in
  let tag := Sample.tag "9" in
  let item9 := PlexItem.mk 9 "plex1" in
  _file (self w) = Attr (Some "/media/film.mkv") /\
  truthy "/media/film.mkv" = true /\
  Host.isPlayingVideo h = true /\
  Host.getVideoInfoTag h = Some tag /\
  isdigit (InfoTagVideo.getUniqueID tag PLEX_PROTOCOL) = true /\
  forallb (no_match h (Some (item_id tag))) (dict_values (_providers (self w)))
  = true /\
  _mediaProvider (self w) = Attr (Some Sample.P1) /\
  _playback_monitor (self w) = Attr (Some (Thread.mk 0)) /\
  _last_state (self w)
  = Attr (mkLastState (Some 0) (Some PLEX_PLAYER_PLAYING)) /\
  Host.getPlexItemDetails h Sample.P1 (Some (item_id tag))
    (InfoTagVideo.getMediaType tag) = Some item9 /\
  int_of_float (float_mul (Host.getTotalTime h) (float_of_int 1000))
  = Ok 3600500 /\
  exists w',
    onAVStarted h w = (Ok tt, w') /\
    _file (self w') = Attr (Some "/media/film.mkv") /\
    _item (self w') = Attr (Some item9) /\
    _mediaProvider (self w') = Attr (Some Sample.P1) /\
    In (getPlexItem Sample.P1 (Some (item_id tag))
          (InfoTagVideo.getMediaType tag)) (calls w') /\
    pushes w'
    = pushes w ++ [updateTimeline item9 0 PLEX_PLAYER_PLAYING (Some 3600500)] /\
    (Some (Thread.mk 0) = None -> threads w' = threads w ++ [AtLoopTest]).
Proof.
  intros playing42 h w tag item9. repeat (split; [reflexivity|]).
  destruct (no_match_resets_unless_provider_left h w "/media/film.mkv" tag
              eq_refl eq_refl eq_refl eq_refl eq_refl eq_refl) as [_ Hleft].
  apply (Hleft Sample.P1 item9 3600500 (Some (Thread.mk 0))
           (mkLastState (Some 0) (Some PLEX_PLAYER_PLAYING))); reflexivity.
Defined.

(** C3.  With [P1] and then [P2] registered (under different identifiers)
    and a catalog item matching the playing id in the catalog of each, the
    matching procedure selects [P1]; among the calls it makes there is the
    remote-item resolution for [P1], and neither a catalog fetch nor a
    remote-item resolution for [P2]. *)
Theorem first_match_wins (h : Host.t) (w : World) (P1 P2 : MediaProvider.t)
    (f : string) (tag : InfoTagVideo.t) :
  String.eqb (MediaProvider.getIdentifier P1) (MediaProvider.getIdentifier P2)
  = false ->
  _providers (self w)
  = dict_set (MediaProvider.getIdentifier P2) P2
      (dict_set (MediaProvider.getIdentifier P1) P1 []) ->
  _file (self w) = Attr (Some f) ->
  truthy f = true ->
  Host.isPlayingVideo h = true ->
  Host.getVideoInfoTag h = Some tag ->
  isdigit (InfoTagVideo.getUniqueID tag PLEX_PROTOCOL) = true ->
  has_match h (Some (item_id tag)) P1 = true ->
  has_match h (Some (item_id tag)) P2 = true ->
  let w' := snd (_startPlayback h w) in
  _mediaProvider (self w') = Attr (Some P1) /\
  exists l,
    calls w' = calls w ++ l /\
    In (getPlexItem P1 (Some (item_id tag)) (InfoTagVideo.getMediaType tag)) l /\
    ~ In (getImportedItems P2) l /\
    forall itemId mediaType, ~ In (getPlexItem P2 itemId mediaType) l.
Proof.
  intros Hne Hreg Hf Hft Hv Htag Hd H1 _ w'. subst w'.
  assert (HP : P1 <> P2).
  { intros ->. rewrite String.eqb_refl in Hne. discriminate. }
  assert (Hps : dict_values (_providers (self w)) = [] ++ P1 :: [P2]).
  { rewrite Hreg. simpl. rewrite String.eqb_sym, Hne. reflexivity. }
  assert (Hm : no_match h (Some (item_id tag)) P1 = false).
  { unfold no_match. rewrite H1. reflexivity. }
  destruct (startPlayback_selects h w f tag [] [P2] P1 Hf Hft Hv Htag Hd Hps
              eq_refl Hm) as (Hsel & tail & Hcalls & Htail).
  split; [exact Hsel|]. eexists. split; [exact Hcalls|].
  cbn [map app]. split.
  - right. apply in_or_app. right. left. reflexivity.
  - assert (Hin : forall c,
               In c (getImportedItems P1
                       :: ambiguity_warning h P1 (Some (item_id tag)) (Some f)
                       ++ getPlexItem P1 (Some (item_id tag))
                            (InfoTagVideo.getMediaType tag) :: tail) ->
               c = getImportedItems P1 \/
               (exists m l, c = log m l) \/
               (exists i t, c = getPlexItem P1 i t) \/
               (exists th, c = threadStart th)).
    { intros c [<-|Hc]; [left; reflexivity|].
      apply in_app_or in Hc as [Hc|[<-|Hc]].
      - unfold ambiguity_warning in Hc.
        destruct (1 <? _)%nat; [|destruct Hc].
        destruct Hc as [<-|[]]. right; left; eauto.
      - right; right; left; eauto.
      - destruct Htail as [->|[th ->]]; [destruct Hc|].
        destruct Hc as [<-|[]]. right; right; right; eauto. }
    split.
    + intros Hc. apply Hin in Hc as [E|[(m & l & E)|[(i & t & E)|(th & E)]]];
        try discriminate. injection E as E. congruence.
    + intros i0 t0 Hc.
      apply Hin in Hc as [E|[(m & l & E)|[(i & t & E)|(th & E)]]];
        try discriminate. injection E as E _ _. congruence.
Qed.

Lemma first_match_wins_witness :
  let h := Sample.host "42" 0 in
  let w := snd (onPlayBackStarted h Sample.two_providers) in
  let tag := Sample.tag "42" in
  String.eqb (MediaProvider.getIdentifier Sample.P1)
    (MediaProvider.getIdentifier Sample.P2) = false /\
  _providers (self w)
  = dict_set (MediaProvider.getIdentifier Sample.P2) Sample.P2
      (dict_set (MediaProvider.getIdentifier Sample.P1) Sample.P1 []) /\
  _file (self w) = Attr (Some "/media/film.mkv") /\
  truthy "/media/film.mkv" = true /\
  Host.isPlayingVideo h = true /\
  Host.getVideoInfoTag h = Some tag /\
  isdigit (InfoTagVideo.getUniqueID tag PLEX_PROTOCOL) = true /\
  has_match h (Some (item_id tag)) Sample.P1 = true /\
  has_match h (Some (item_id tag)) Sample.P2 = true /\
  let w' := snd (_startPlayback h w) in
  _mediaProvider (self w') = Attr (Some Sample.P1) /\
  exists l,
    calls w' = calls w ++ l /\
    In (getPlexItem Sample.P1 (Some (item_id tag))
          (InfoTagVideo.getMediaType tag)) l /\
    ~ In (getImportedItems Sample.P2) l /\
    forall itemId mediaType, ~ In (getPlexItem Sample.P2 itemId mediaType) l.
Proof.
  intros h w tag. repeat (split; [reflexivity|]).
  apply (first_match_wins h w Sample.P1 Sample.P2 "/media/film.mkv" tag);
    reflexivity.
Defined.

Lemma forallb_app_l (A : Type) (f : A -> bool) (l1 l2 : list A) :
  forallb f (l1 ++ l2) = true -> forallb f l1 = true.
Proof.
  rewrite forallb_app. intros H. apply andb_prop in H. tauto.
Qed.

(** C7.  A playback start on a file, followed by the A/V start of a video
    whose digit-string id is matched by exactly one catalog item of one
    registered provider [P] and by no item of the other providers, with
    the remote item [it] resolved and the total time converting to [d]
    milliseconds: the A/V-started callback returns and sends exactly one
    update, [it.updateTimeline(0, state=PLAYING, duration=d)]. *)
Theorem av_started_pushes_once (h0 h : Host.t) (w0 : World)
    (pre post : list MediaProvider.t) (P : MediaProvider.t)
    (tag : InfoTagVideo.t) (it : PlexItem.t) (d : Z) :
  truthy (Host.getPlayingFile h0) = true ->
  Host.isPlayingVideo h = true ->
  Host.getVideoInfoTag h = Some tag ->
  isdigit (InfoTagVideo.getUniqueID tag PLEX_PROTOCOL) = true ->
  dict_values (_providers (self w0)) = pre ++ P :: post ->
  forallb (no_match h (Some (item_id tag))) (pre ++ post) = true ->
  length (matching h P (Some (item_id tag))) = 1%nat ->
  Host.getPlexItemDetails h P (Some (item_id tag))
    (InfoTagVideo.getMediaType tag) = Some it ->
  int_of_float (float_mul (Host.getTotalTime h) (float_of_int 1000)) = Ok d ->
  let w := snd (onPlayBackStarted h0 w0) in
  exists w',
    onAVStarted h w = (Ok tt, w') /\
    pushes w' = pushes w ++ [updateTimeline it 0 PLEX_PLAYER_PLAYING (Some d)].
Proof.
  intros Hft Hv Htag Hd Hps Hno Hone Hit Hdur w.
  assert (Hm : no_match h (Some (item_id tag)) P = false).
  { rewrite no_match_matching.
    destruct (matching h P (Some (item_id tag))); [discriminate | reflexivity]. }
  assert (Hw : ambiguity_warning h P (Some (item_id tag))
                 (Some (Host.getPlayingFile h0)) = []).
  { unfold ambiguity_warning. rewrite Hone. reflexivity. }
  pose proof (startPlayback_matched h w (Host.getPlayingFile h0) tag pre post P d
                eq_refl Hft eq_refl Hv Htag Hd Hps
                (forallb_app_l _ _ _ _ Hno) Hm Hdur) as E.
  cbv zeta in E. rewrite Hw, Hit in E.
  eexists. split.
  - unfold onAVStarted, bind. rewrite E.
    apply (sync_state_and_time_pushes PLEX_PLAYER_PLAYING 0
             (mkLastState None None) it (Some d)); reflexivity.
  - unfold pushes. cbn [calls]. rewrite !filter_app. cbn [filter is_push].
    rewrite no_push_in_fetches, !app_nil_r. reflexivity.
Qed.

Lemma av_started_pushes_once_witness :
  let h := Sample.host "42" 0 in
  let tag := Sample.tag "42" in
  truthy (Host.getPlayingFile h) = true /\
  Host.isPlayingVideo h = true /\
  Host.getVideoInfoTag h = Some tag /\
  isdigit (InfoTagVideo.getUniqueID tag PLEX_PROTOCOL) = true /\
  dict_values (_providers (self Sample.one_provider)) = [] ++ Sample.P1 :: [] /\
  forallb (no_match h (Some (item_id tag))) ([] ++ []) = true /\
  length (matching h Sample.P1 (Some (item_id tag))) = 1%nat /\
  Host.getPlexItemDetails h Sample.P1 (Some (item_id tag))
    (InfoTagVideo.getMediaType tag) = Some Sample.item42 /\
  int_of_float (float_mul (Host.getTotalTime h) (float_of_int 1000))
  = Ok 3600500 /\
  let w := snd (onPlayBackStarted h Sample.one_provider) in
  exists w',
    onAVStarted h w = (Ok tt, w') /\
    pushes w'
    = pushes w
      ++ [updateTimeline Sample.item42 0 PLEX_PLAYER_PLAYING (Some 3600500)].
Proof.
  intros h tag. repeat (split; [reflexivity|]).
  apply (av_started_pushes_once h h Sample.one_provider [] [] Sample.P1 tag
           Sample.item42 3600500); reflexivity.
Defined.

Lemma provider_registry_witness :
  let mp := Some Sample.P1 in
  let w := Sample.one_provider in
  dict_wf (_providers (self w)) = true /\
  (fst (AddProvider mp w) = Raise ValueError <-> mp = None) /\
  (forall p, mp = Some p ->
     exists d',
       AddProvider mp w
       = (Ok tt, mkWorld (set_providers d' (self w)) (threads w) (calls w)) /\
       dict_wf d' = true /\
       dict_get (MediaProvider.getIdentifier p) d' = Some p /\
       forall k, k <> MediaProvider.getIdentifier p ->
                 dict_get k d' = dict_get k (_providers (self w))) /\
  (fst (RemoveProvider mp w) = Raise ValueError <-> mp = None) /\
  (forall p, mp = Some p ->
     dict_get (MediaProvider.getIdentifier p) (_providers (self w)) = None ->
     RemoveProvider mp w = (Raise KeyError, w)) /\
  (forall p, mp = Some p ->
     dict_get (MediaProvider.getIdentifier p) (_providers (self w)) <> None ->
     exists d',
       RemoveProvider mp w
       = (Ok tt, mkWorld (set_providers d' (self w)) (threads w) (calls w)) /\
       dict_wf d' = true /\
       dict_get (MediaProvider.getIdentifier p) d' = None /\
       forall k, k <> MediaProvider.getIdentifier p ->
                 dict_get k d' = dict_get k (_providers (self w))).
Proof.
  intros mp w. split; [reflexivity|].
  apply (provider_registry mp w). reflexivity.
Defined.


(** ** The monitor thread *)

Lemma nth_list_set_eq (A : Type) (l : list A) (i : nat) (x dflt : A) :
  (i < length l)%nat -> nth i (list_set i x l) dflt = x.
Proof.
  revert i. induction l as [|a l IH]; intros [|i] H; simpl in *; try lia.
  - reflexivity.
  - apply IH. lia.
Qed.

Lemma alive_in_range (w : World) (th : Thread.t) :
  thread_pc w th <> Exited -> (Thread.ident th < length (threads w))%nat.
Proof.
  unfold thread_pc. intros H.
  destruct (Nat.lt_ge_cases (Thread.ident th) (length (threads w))) as [|Hge];
    [assumption|].
  rewrite nth_overflow in H by exact Hge. contradiction.
Qed.

Lemma thread_pc_set_pc (w : World) (th : Thread.t) (pc : MonitorPC) :
  thread_pc w th <> Exited -> thread_pc (set_pc th pc w) th = pc.
Proof.
  intros H. unfold thread_pc, set_pc. cbn [threads].
  apply nth_list_set_eq. apply alive_in_range. exact H.
Qed.


(** An alive thread that finds the abort flag set or the item cleared. *)
Lemma monitor_exits (h : Host.t) (th : Thread.t) (w : World) :
  is_alive w th = true ->
  Host.abortRequested h = true \/ _item (self w) = Attr None ->
  _monitor_playback h th w = set_pc th Exited w.
Proof.
  intros Halive Hexit. unfold _monitor_playback, is_alive in *.
  destruct (thread_pc w th); try discriminate.
  - unfold monitor_loop_test.
    destruct (Host.abortRequested h); [reflexivity|].
    destruct Hexit as [|Hi]; [discriminate|].
    unfold bind, getattr. rewrite Hi. reflexivity.
  - unfold monitor_wake.
    destruct (Host.abortRequested h); [reflexivity|].
    destruct Hexit as [|Hi]; [discriminate|].
    unfold bind, getattr. rewrite Hi. reflexivity.
Qed.

Lemma alive_not_exited (w : World) (th : Thread.t) :
  is_alive w th = true -> thread_pc w th <> Exited.
Proof. unfold is_alive. destruct (thread_pc w th); congruence. Qed.

Lemma idle_monitors_end (w : World) :
  _item (self w) = Attr None -> monitors_end w.
Proof.
  intros Hi th h w'. subst w'. destruct (is_alive w th) eqn:Ha.
  - rewrite (monitor_exits h th w Ha (or_intror Hi)).
    split; [|split; reflexivity].
    unfold is_alive. rewrite thread_pc_set_pc by (apply alive_not_exited, Ha).
    reflexivity.
  - unfold _monitor_playback. unfold is_alive in Ha.
    destruct (thread_pc w th) eqn:Hpc; try discriminate;
      (split; [unfold is_alive; rewrite Hpc; reflexivity | split; reflexivity]).
Qed.

Lemma reset_idle (w : World) :
  fst (_reset w) = Ok tt /\ idle (self (snd (_reset w))) /\
  _providers (self (snd (_reset w))) = _providers (self w) /\
  threads (snd (_reset w)) = threads w /\ calls (snd (_reset w)) = calls w.
Proof. repeat split. Qed.





(** ** Resetting *)

Section Preserves.
Variables A B : Type.

Lemma preserves_ret (a : A) : preserves (ret a).
Proof. intros w H. exact H. Qed.

Lemma preserves_raise (e : PyExc) : preserves (@raise A e).
Proof. intros w H. exact H. Qed.

Lemma preserves_lift (r : Res A) : preserves (lift r).
Proof. intros w H. exact H. Qed.

Lemma preserves_getattr (f : Player -> attr A) : preserves (getattr f).
Proof. intros w H. unfold getattr. destruct (f (self w)); exact H. Qed.

Lemma preserves_local (x : option A) : preserves (local x).
Proof. intros w H. destruct x; exact H. Qed.

Lemma preserves_getitem (l : list A) (i : nat) : preserves (getitem l i).
Proof. intros w H. unfold getitem. destruct (nth_error l i); exact H. Qed.

Lemma preserves_bind (m : M A) (k : A -> M B) :
preserves m -> (forall a, preserves (k a)) -> preserves (bind m k).
Proof.
intros Hm Hk w H. unfold bind. specialize (Hm w H).
destruct (m w) as [[a|e] w1]; cbn [snd] in *; [apply Hk|]; exact Hm.
Qed.

Lemma preserves_if (b : bool) (m1 m2 : M A) :
preserves m1 -> preserves m2 -> preserves (if b then m1 else m2).
Proof. destruct b; tauto. Qed.

Lemma preserves_reads (f : World -> M A) :
(forall w0, preserves (f w0)) -> preserves (fun w => f w w).
Proof. intros Hf w H. apply Hf. exact H. Qed.
End Preserves.

Lemma preserves_call (c : Call) : preserves (call c).
Proof. intros w H. exact H. Qed.

Lemma preserves_setattr (upd : Player -> Player) :
  (forall p, initialised p = true -> initialised (upd p) = true) ->
  preserves (setattr upd).
Proof. intros Hu w H. apply Hu. exact H. Qed.

Lemma initialised_set_providers d p :
  initialised p = true -> initialised (set_providers d p) = true.
Proof. intros H; exact H. Qed.

Ltac setter_keeps :=
  intros H; unfold initialised in *; cbn in *;
  repeat (apply andb_prop in H as [H ?]);
  repeat (apply andb_true_intro; split); assumption || reflexivity.

Lemma initialised_set_file v p :
  initialised p = true -> initialised (set_file v p) = true.
Proof. setter_keeps. Qed.
Lemma initialised_set_item v p :
  initialised p = true -> initialised (set_item v p) = true.
Proof. setter_keeps. Qed.
Lemma initialised_set_itemId v p :
  initialised p = true -> initialised (set_itemId v p) = true.
Proof. setter_keeps. Qed.
Lemma initialised_set_mediaProvider v p :
  initialised p = true -> initialised (set_mediaProvider v p) = true.
Proof. setter_keeps. Qed.
Lemma initialised_set_duration v p :
  initialised p = true -> initialised (set_duration v p) = true.
Proof. setter_keeps. Qed.
Lemma initialised_set_playback_monitor v p :
  initialised p = true -> initialised (set_playback_monitor v p) = true.
Proof. setter_keeps. Qed.
Lemma initialised_set_last_state v p :
  initialised p = true -> initialised (set_last_state v p) = true.
Proof. setter_keeps. Qed.

Lemma preserves_Thread_new : preserves Thread_new.
Proof. intros w H. exact H. Qed.
Lemma preserves_Thread_start th : preserves (Thread_start th).
Proof. intros w H. exact H. Qed.
Lemma preserves_Thread_isAlive th : preserves (Thread_isAlive th).
Proof. intros w H. exact H. Qed.

Create HintDb preserves.
#[local] Hint Resolve preserves_ret preserves_raise preserves_lift
  preserves_getattr preserves_local preserves_getitem preserves_call
  preserves_setattr preserves_Thread_new preserves_Thread_start
  preserves_Thread_isAlive
  initialised_set_providers initialised_set_file initialised_set_item
  initialised_set_itemId initialised_set_mediaProvider
  initialised_set_duration initialised_set_playback_monitor
  initialised_set_last_state : preserves.

Ltac preserve :=
  repeat first
    [ progress auto with preserves
    | apply preserves_bind; [|intros ?]
    | apply preserves_if
    | match goal with
      | |- preserves (match ?x with _ => _ end) => destruct x
      end ].

Lemma preserves_reset : preserves _reset.
Proof. unfold _reset. preserve. Qed.

Lemma preserves_sync state time : preserves (_syncPlaybackState state time).
Proof. unfold _syncPlaybackState. preserve. Qed.

Lemma preserves_for h ps : preserves (for_mediaProvider h ps).
Proof.
  induction ps as [|p ps IH]; cbn [for_mediaProvider]; preserve.
Qed.

Lemma preserves_startPlayback h : preserves (_startPlayback h).
Proof.
  unfold _startPlayback. cbv zeta. preserve.
  - apply (preserves_reads _ (fun w0 => for_mediaProvider h (dict_values (_providers (self w0))))).
    intros w0. apply preserves_for.
Qed.

Lemma preserves_AddProvider mp : preserves (AddProvider mp).
Proof. unfold AddProvider. destruct mp; preserve. Qed.

Lemma preserves_RemoveProvider mp : preserves (RemoveProvider mp).
Proof.
  unfold RemoveProvider. destruct mp as [p|]; [|preserve].
  intros w H.
  destruct (dict_del (MediaProvider.getIdentifier p) (_providers (self w)));
    exact H.
Qed.

#[local] Hint Resolve preserves_reset preserves_sync preserves_for
  preserves_startPlayback preserves_AddProvider preserves_RemoveProvider
  : preserves.

Lemma preserves_callback h c : preserves (callback h c).
Proof.
  destruct c; cbn [callback];
    unfold onPlayBackStarted, onAVStarted, onPlayBackSeek,
      onPlayBackSeekChapter, onPlayBackPaused, onPlayBackResumed,
      onPlayBackStopped, onPlayBackEnded, _getPlayingTime;
    preserve.
Qed.

Lemma initialised_set_pc th pc w :
  initialised (self (set_pc th pc w)) = initialised (self w).
Proof. reflexivity. Qed.

Lemma preserves_monitor h th w :
  initialised (self w) = true ->
  initialised (self (_monitor_playback h th w)) = true.
Proof.
  intros H. unfold _monitor_playback.
  assert (Ht : preserves (monitor_loop_test h)).
  { unfold monitor_loop_test. preserve. }
  assert (Hw : preserves (monitor_wake h)).
  { unfold monitor_wake, _getPlayingTime. preserve. }
  specialize (Ht w H). specialize (Hw w H).
  destruct (thread_pc w th); try exact H.
  - destruct (monitor_loop_test h w) as [[[]|] w1]; exact Ht.
  - destruct (monitor_wake h w) as [[[]|] w1]; exact Hw.
Qed.

Lemma initialised_step w he :
  initialised (self w) = true -> initialised (self (step w he)) = true.
Proof.
  intros H. unfold step. destruct (snd he).
  - apply preserves_callback. exact H.
  - apply preserves_monitor. exact H.
Qed.

Lemma initialised_run trace w :
  initialised (self w) = true -> initialised (self (run w trace)) = true.
Proof.
  revert w. induction trace as [|he trace IH]; intros w H; simpl.
  - exact H.
  - apply IH. apply initialised_step. exact H.
Qed.





(** C10, as amended.  The constructor creates the provider dict and no
    session attribute.  On an object whose session attributes do not exist
    yet, the A/V-started, paused, resumed and stopped callbacks raise
    [AttributeError] (the elapsed time being a finite number), and so do the
    two seek callbacks at an elapsed time other than zero; the ended
    callback raises nothing: it resets, and the session attributes exist
    with value [None] afterwards. *)
Theorem unset_session_handlers (d : dict MediaProvider.t)
    (ths : list MonitorPC) (cs : list Call) (h : Host.t) (t : Z) :
  let w := mkWorld (set_providers d __init__) ths cs in
  int_of_float (float_mul (Host.getTime h) (float_of_int 1000)) = Ok t ->
  (_file __init__ = NoAttr /\ _item __init__ = NoAttr /\
   _itemId __init__ = NoAttr /\ _mediaProvider __init__ = NoAttr /\
   _duration __init__ = NoAttr /\ _playback_monitor __init__ = NoAttr /\
   _last_state __init__ = NoAttr /\ _providers __init__ = []) /\
  onAVStarted h w = (Raise AttributeError, w) /\
  onPlayBackPaused h w = (Raise AttributeError, w) /\
  onPlayBackResumed h w = (Raise AttributeError, w) /\
  onPlayBackStopped w = (Raise AttributeError, w) /\
  (t <> 0 ->
   onPlayBackSeek h w = (Raise AttributeError, w) /\
   onPlayBackSeekChapter h w = (Raise AttributeError, w)) /\
  exists w',
    onPlayBackEnded w = (Ok tt, w') /\ idle (self w') /\
    _providers (self w') = d.
Proof.
  intros w Ht. split; [repeat split|].
  split; [reflexivity|].
  split; [unfold onPlayBackPaused, _getPlayingTime, bind, lift; rewrite Ht;
          reflexivity|].
  split; [unfold onPlayBackResumed, _getPlayingTime, bind, lift; rewrite Ht;
          reflexivity|].
  split; [reflexivity|].
  split.
  - intros Hnz. pose proof (truthy_nonzero t Hnz) as Htt.
    unfold onPlayBackSeek, onPlayBackSeekChapter, _getPlayingTime, bind, lift.
    rewrite Ht. unfold _syncPlaybackState. rewrite Htt. split; reflexivity.
  - eexists. split; [reflexivity|]. repeat split.
Qed.

Lemma unset_session_handlers_witness :
  let h := Sample.host "42" 25 in
  let w := mkWorld (set_providers [] __init__) [] [] in
  int_of_float (float_mul (Host.getTime h) (float_of_int 1000)) = Ok 12500 /\
  (_file __init__ = NoAttr /\ _item __init__ = NoAttr /\
   _itemId __init__ = NoAttr /\ _mediaProvider __init__ = NoAttr /\
   _duration __init__ = NoAttr /\ _playback_monitor __init__ = NoAttr /\
   _last_state __init__ = NoAttr /\ _providers __init__ = []) /\
  onAVStarted h w = (Raise AttributeError, w) /\
  onPlayBackPaused h w = (Raise AttributeError, w) /\
  onPlayBackResumed h w = (Raise AttributeError, w) /\
  onPlayBackStopped w = (Raise AttributeError, w) /\
  (12500 <> 0 ->
   onPlayBackSeek h w = (Raise AttributeError, w) /\
   onPlayBackSeekChapter h w = (Raise AttributeError, w)) /\
  exists w',
    onPlayBackEnded w = (Ok tt, w') /\ idle (self w') /\
    _providers (self w') = [].
Proof.
  intros h w. split; [reflexivity|].
  apply (unset_session_handlers [] [] [] h 12500). reflexivity.
Defined.


(** The ended callback on a reporter right after construction returns. *)
Lemma ended_on_fresh_reporter_returns :
  fst (callback (Sample.host "42" 0) CPlayBackEnded fresh) = Ok tt /\
  fst (callback (Sample.host "42" 0) CPlayBackEnded fresh)
  <> Raise AttributeError.
Proof. split; [reflexivity | discriminate]. Qed.

(** ** A session, run

    The provider ["plex1"] registered, the video 42 played, paused at 12.5
    seconds and stopped: the updates sent, in order. *)
Example session_of_video_42 :
  let playing := Sample.host "42" in
  pushes
    (run fresh
       [(playing 0, Host_calls (CAddProvider (Some Sample.P1)));
        (playing 0, Host_calls CPlayBackStarted);
        (playing 0, Host_calls CAVStarted);
        (playing 0, Thread_runs (Thread.mk 0));
        (playing 10, Thread_runs (Thread.mk 0));
        (playing 10, Thread_runs (Thread.mk 0));
        (playing 25, Host_calls CPlayBackPaused);
        (playing 25, Host_calls CPlayBackStopped);
        (playing 25, Thread_runs (Thread.mk 0))])
  = [updateTimeline Sample.item42 0 "playing" (Some 3600500);
     updateTimeline Sample.item42 5000 "playing" (Some 3600500);
     updateTimeline Sample.item42 12500 "paused" (Some 3600500);
     updateTimeline Sample.item42 12500 "stopped" (Some 3600500)].
Proof. vm_compute. reflexivity. Qed.

(** The id is compared in the string form of the parsed number: a video
    tagged ["042"] matches the catalog item tagged ["42"]. *)
Example leading_zero_matches :
  int_of_str "042" = Ok 42 /\ str_of_int 42 = "42" /\
  has_match (Sample.host "042" 0) (Some (item_id (Sample.tag "042"))) Sample.P1
  = true.
Proof. repeat split. Qed.

(** * Further properties *)

(** ** Frames of the methods *)

Section Frames.
Variable R : World -> World -> Prop.
Hypothesis R_refl : forall w, R w w.
Hypothesis R_trans : forall w1 w2 w3, R w1 w2 -> R w2 w3 -> R w1 w3.

Lemma frames_ret (A : Type) (a : A) : frames R (ret a).
Proof. intros w. apply R_refl. Qed.

Lemma frames_raise (A : Type) (e : PyExc) : frames R (@raise A e).
Proof. intros w. apply R_refl. Qed.

Lemma frames_lift (A : Type) (r : Res A) : frames R (lift r).
Proof. intros w. apply R_refl. Qed.

Lemma frames_getattr (A : Type) (f : Player -> attr A) : frames R (getattr f).
Proof. intros w. unfold getattr. destruct (f (self w)); apply R_refl. Qed.

Lemma frames_local (A : Type) (x : option A) : frames R (local x).
Proof. intros w. destruct x; apply R_refl. Qed.

Lemma frames_getitem (A : Type) (l : list A) (i : nat) :
  frames R (getitem l i).
Proof. intros w. unfold getitem. destruct (nth_error l i); apply R_refl. Qed.

Lemma frames_isAlive (th : Thread.t) : frames R (Thread_isAlive th).
Proof. intros w. apply R_refl. Qed.

Lemma frames_bind (A B : Type) (m : M A) (k : A -> M B) :
  frames R m -> (forall a, frames R (k a)) -> frames R (bind m k).
Proof.
  intros Hm Hk w. unfold bind. specialize (Hm w).
  destruct (m w) as [[a|e] w1]; cbn [snd] in *; [|exact Hm].
  eapply R_trans; [exact Hm | apply Hk].
Qed.

Lemma frames_if (A : Type) (b : bool) (m1 m2 : M A) :
  frames R m1 -> frames R m2 -> frames R (if b then m1 else m2).
Proof. destruct b; tauto. Qed.

Lemma frames_reads (A : Type) (f : World -> M A) :
  (forall w0, frames R (f w0)) -> frames R (fun w => f w w).
Proof. intros Hf w. apply Hf. Qed.
End Frames.

(** Splits a computation along its binds, conditionals and matches, and
    closes the leaves that read only; what assigns or calls is left. *)
Ltac frame_with Hrefl Htrans :=
  repeat first
    [ apply (frames_ret _ Hrefl)
    | apply (frames_raise _ Hrefl)
    | apply (frames_lift _ Hrefl)
    | apply (frames_getattr _ Hrefl)
    | apply (frames_local _ Hrefl)
    | apply (frames_getitem _ Hrefl)
    | apply (frames_isAlive _ Hrefl)
    | assumption
    | apply (frames_bind _ Htrans); [|intros ?]
    | apply frames_if
    | match goal with
      | |- frames _ (match ?x with _ => _ end) => destruct x
      end ].

(** *** The registry *)

Lemma same_registry_refl w : same_registry w w.
Proof. reflexivity. Qed.

Lemma same_registry_trans w1 w2 w3 :
  same_registry w1 w2 -> same_registry w2 w3 -> same_registry w1 w3.
Proof. unfold same_registry. congruence. Qed.

Lemma registry_setattr (upd : Player -> Player) :
  (forall p, _providers (upd p) = _providers p) ->
  frames same_registry (setattr upd).
Proof. intros H w. apply H. Qed.

Lemma registry_call (c : Call) : frames same_registry (call c).
Proof. intros w. reflexivity. Qed.

Lemma registry_Thread_new : frames same_registry Thread_new.
Proof. intros w. reflexivity. Qed.

Lemma registry_Thread_start th : frames same_registry (Thread_start th).
Proof. intros w. reflexivity. Qed.

Ltac registry :=
  repeat first
    [ progress frame_with same_registry_refl same_registry_trans
    | apply registry_call
    | apply registry_Thread_new
    | apply registry_Thread_start
    | apply registry_setattr; intros ?; reflexivity ].

Lemma registry_reset : frames same_registry _reset.
Proof. unfold _reset. registry. Qed.

Lemma registry_sync state time :
  frames same_registry (_syncPlaybackState state time).
Proof. unfold _syncPlaybackState. registry. Qed.

Lemma registry_for h ps : frames same_registry (for_mediaProvider h ps).
Proof.
  induction ps as [|p ps IH]; cbn [for_mediaProvider]; registry.
Qed.

Lemma registry_startPlayback h : frames same_registry (_startPlayback h).
Proof.
  pose proof registry_reset. 
  unfold _startPlayback. cbv zeta. registry.
  apply (frames_reads same_registry _
           (fun w0 => for_mediaProvider h (dict_values (_providers (self w0))))).
  intros w0. apply registry_for.
Qed.

Lemma registry_callback h c :
  changes_registry (Host_calls c) = false ->
  frames same_registry (callback h c).
Proof.
  pose proof registry_reset. pose proof (registry_startPlayback h).
  pose proof registry_sync.
  destruct c; cbn [changes_registry callback]; try discriminate; intros _;
    unfold onPlayBackStarted, onAVStarted, onPlayBackSeek,
      onPlayBackSeekChapter, onPlayBackPaused, onPlayBackResumed,
      onPlayBackStopped, onPlayBackEnded, _getPlayingTime;
    registry.
Qed.

Lemma registry_monitor h th w : same_registry w (_monitor_playback h th w).
Proof.
  pose proof registry_sync.
  assert (Ht : frames same_registry (monitor_loop_test h))
    by (unfold monitor_loop_test; registry).
  assert (Hw : frames same_registry (monitor_wake h))
    by (unfold monitor_wake, _getPlayingTime; registry).
  specialize (Ht w). specialize (Hw w). unfold _monitor_playback.
  destruct (thread_pc w th); try reflexivity.
  - destruct (monitor_loop_test h w) as [[[]|] w1]; exact Ht.
  - destruct (monitor_wake h w) as [[[]|] w1]; exact Hw.
Qed.

Lemma step_keeps_registry (h : Host.t) (e : Event) (w : World) :
  changes_registry e = false -> same_registry w (step w (h, e)).
Proof.
  intros He. unfold step. cbn [fst snd]. destruct e as [c|th].
  - apply (registry_callback h c He).
  - apply registry_monitor.
Qed.

(** X5.  Only [AddProvider] and [RemoveProvider] assign to the provider
    registry: every other callback and every step of a monitor thread,
    whether it returns or raises, leaves the registry as it was. *)
Theorem lifecycle_keeps_registry (h : Host.t) (e : Event) (w : World) :
  changes_registry e = false ->
  _providers (self (step w (h, e))) = _providers (self w).
Proof.
  apply step_keeps_registry.
Qed.

Lemma lifecycle_keeps_registry_witness :
  let h := Sample.host "42" 25 in
  changes_registry (Host_calls CAVStarted) = false /\
  _providers
    (self (step (snd (onPlayBackStarted h Sample.two_providers))
             (h, Host_calls CAVStarted)))
  = _providers (self (snd (onPlayBackStarted h Sample.two_providers))).
Proof.
  intros h. split; [reflexivity|].
  apply (lifecycle_keeps_registry h (Host_calls CAVStarted)). reflexivity.
Defined.

(** *** Registry operations *)

Lemma dict_del_set_new (V : Type) (d : dict V) (k : string) (v : V) :
  dict_get k d = None -> dict_del k (dict_set k v d) = Some d.
Proof.
  induction d as [|[k0 v0] d IH]; simpl.
  - rewrite String.eqb_refl. reflexivity.
  - destruct (String.eqb_spec k k0) as [->|Hk]; [discriminate|].
    intros H. simpl. destruct (String.eqb_spec k k0); [contradiction|].
    rewrite (IH H). reflexivity.
Qed.



(** X1.  Registering a provider whose identifier is not registered and
    removing it again gives back the reporter as it was: both calls return
    and the registry, with its iteration order, is restored. *)
Theorem add_then_remove_restores (p : MediaProvider.t) (w : World) :
  dict_get (MediaProvider.getIdentifier p) (_providers (self w)) = None ->
  (AddProvider (Some p) ;; RemoveProvider (Some p)) w = (Ok tt, w).
Proof.
  intros Hnew. unfold bind, AddProvider, RemoveProvider, setattr.
  cbn [self set_providers _providers].
  rewrite (dict_del_set_new _ _ _ p Hnew).
  destruct w as [[ps fl it iid mp du mon ls] ths cs]. reflexivity.
Qed.

Lemma add_then_remove_restores_witness :
  dict_get (MediaProvider.getIdentifier Sample.P2)
    (_providers (self Sample.one_provider)) = None /\
  (AddProvider (Some Sample.P2) ;; RemoveProvider (Some Sample.P2))
    Sample.one_provider
  = (Ok tt, Sample.one_provider).
Proof.
  split; [reflexivity|].
  apply (add_then_remove_restores Sample.P2 Sample.one_provider). reflexivity.
Defined.



(** X3.  After [RemoveProvider] has removed a provider, removing it a second
    time raises [KeyError] and changes nothing. *)
Theorem remove_twice_fails (p : MediaProvider.t) (w : World) :
  dict_wf (_providers (self w)) = true ->
  fst (RemoveProvider (Some p) w) = Ok tt ->
  RemoveProvider (Some p) (snd (RemoveProvider (Some p) w))
  = (Raise KeyError, snd (RemoveProvider (Some p) w)).
Proof.
  intros Hwf. unfold RemoveProvider.
  destruct (dict_del (MediaProvider.getIdentifier p) (_providers (self w)))
    as [d'|] eqn:Ed; [|discriminate].
  intros _. cbn [setattr snd self set_providers _providers].
  pose proof (dict_get_del_eq _ _ _ _ Hwf Ed) as Hgone.
  apply dict_del_missing in Hgone. rewrite Hgone. reflexivity.
Qed.

Lemma remove_twice_fails_witness :
  dict_wf (_providers (self Sample.two_providers)) = true /\
  fst (RemoveProvider (Some Sample.P1) Sample.two_providers) = Ok tt /\
  RemoveProvider (Some Sample.P1)
    (snd (RemoveProvider (Some Sample.P1) Sample.two_providers))
  = (Raise KeyError, snd (RemoveProvider (Some Sample.P1) Sample.two_providers)).
Proof.
  split; [reflexivity|]. split; [reflexivity|].
  apply (remove_twice_fails Sample.P1 Sample.two_providers); reflexivity.
Defined.

Lemma dict_wf_step (w : World) (he : Host.t * Event) :
  dict_wf (_providers (self w)) = true ->
  dict_wf (_providers (self (step w he))) = true.
Proof.
  intros Hwf. destruct he as [h e].
  destruct (changes_registry e) eqn:He.
  - destruct e as [[mp|mp| | | | | | | | ]|th]; try discriminate;
      unfold step; cbn [fst snd callback].
    + destruct mp as [p|]; [|exact Hwf]. apply dict_wf_set. exact Hwf.
    + destruct mp as [p|]; [|exact Hwf]. unfold RemoveProvider.
      destruct (dict_del (MediaProvider.getIdentifier p) (_providers (self w)))
        as [d'|] eqn:Ed; [|exact Hwf].
      exact (dict_wf_del _ _ _ _ Hwf Ed).
  - rewrite (step_keeps_registry h e w He). exact Hwf.
Qed.

(** X4.  In every state a reporter reaches from its construction, whatever
    the callbacks and monitor steps and whether they returned or raised,
    the registry holds each identifier once. *)
Theorem registry_identifiers_unique (trace : list (Host.t * Event)) :
  dict_wf (_providers (self (run fresh trace))) = true.
Proof.
  unfold run. generalize fresh (eq_refl : dict_wf (_providers (self fresh)) = true).
  induction trace as [|he trace IH]; intros w Hwf; cbn [fold_left].
  - exact Hwf.
  - apply IH. apply dict_wf_step. exact Hwf.
Qed.

(** ** What the state synchronisation sends *)

Ltac sync_cases w state time :=
  destruct w as [[ps fl [|[it|]] iid mp [|du] mon [|[[lt|] [[|c1 s1]|]]]]
                   ths cs];
  destruct state as [[|c0 s0]|]; destruct time as [t|];
  unfold _syncPlaybackState;
  cbv [truthy Truthy_option Truthy_Z Truthy_string Truthy_PlexItem];
  try destruct (t =? 0).

Lemma sync_facts (state : option string) (time : option Z) (w : World) :
  let w' := snd (_syncPlaybackState state time w) in
  same_but_last_state w w' /\
  (calls w' = calls w \/
   exists it t s d,
     calls w' = calls w ++ [updateTimeline it t s d] /\
     _item (self w) = Attr (Some it) /\
     _duration (self w) = Attr d /\
     _last_state (self w') = Attr (mkLastState (Some t) (Some s)) /\
     truthy s = true).
Proof.
  sync_cases w state time; run_monad;
    (split; [repeat split|]);
    first [ left; reflexivity
          | right; do 4 eexists; repeat split; reflexivity ].
Qed.

Lemma sync_sends_frame (state : option string) (time : option Z) (w : World) :
  same_but_last_state w (snd (_syncPlaybackState state time w)).
Proof. apply (sync_facts state time w). Qed.

(** X7.  One call of the state synchronisation, whatever its arguments and
    the session: it assigns to the last-state record only, and it sends
    nothing or exactly one update.  An update goes to the matched item,
    with the session duration, and carries the time and the state that the
    record holds after the call. *)
Theorem sync_sends_what_it_records (state : option string) (time : option Z)
    (w : World) :
  let w' := snd (_syncPlaybackState state time w) in
  same_but_last_state w w' /\
  (calls w' = calls w \/
   exists it t s d,
     calls w' = calls w ++ [updateTimeline it t s d] /\
     _item (self w) = Attr (Some it) /\
     _duration (self w) = Attr d /\
     _last_state (self w') = Attr (mkLastState (Some t) (Some s)) /\
     truthy s = true).
Proof.
  intros w'. subst w'.
  destruct (sync_facts state time w) as [Hframe Hcalls].
  split; [exact Hframe|].
  destruct Hcalls as [Hnone|Hone]; [left | right]; assumption.
Qed.

(** ** Reports of the callbacks *)

Lemma getPlayingTime_ok (h : Host.t) (t : Z) (w : World) :
  int_of_float (float_mul (Host.getTime h) (float_of_int 1000)) = Ok t ->
  _getPlayingTime h w = (Ok t, w).
Proof. intros H. unfold _getPlayingTime, lift. rewrite H. reflexivity. Qed.

(** X8.  On a session with a matched item, the paused callback sends exactly
    one update, the elapsed time in milliseconds with the state PAUSED and
    the session duration, and records both; the resumed callback does the
    same with the state PLAYING.  This holds at every elapsed time, 0
    included. *)
Theorem pause_and_resume_report (h : Host.t) (w : World) (it : PlexItem.t)
    (d : option Z) (ls : LastState) (t : Z) :
  _item (self w) = Attr (Some it) ->
  _duration (self w) = Attr d ->
  _last_state (self w) = Attr ls ->
  int_of_float (float_mul (Host.getTime h) (float_of_int 1000)) = Ok t ->
  onPlayBackPaused h w
  = (Ok tt,
     mkWorld
       (set_last_state (mkLastState (Some t) (Some PLEX_PLAYER_PAUSED)) (self w))
       (threads w) (calls w ++ [updateTimeline it t PLEX_PLAYER_PAUSED d])) /\
  onPlayBackResumed h w
  = (Ok tt,
     mkWorld
       (set_last_state (mkLastState (Some t) (Some PLEX_PLAYER_PLAYING)) (self w))
       (threads w) (calls w ++ [updateTimeline it t PLEX_PLAYER_PLAYING d])).
Proof.
  intros Hi Hd Hl Ht. unfold onPlayBackPaused, onPlayBackResumed, bind.
  rewrite (getPlayingTime_ok h t w Ht). split.
  - apply (sync_state_and_time_pushes PLEX_PLAYER_PAUSED t ls it d w);
      [reflexivity | assumption..].
  - apply (sync_state_and_time_pushes PLEX_PLAYER_PLAYING t ls it d w);
      [reflexivity | assumption..].
Qed.

Lemma pause_and_resume_report_witness :
  let h := Sample.host "42" 25 in
  let w := Sample.matched in
  _item (self w) = Attr (Some Sample.item42) /\
  _duration (self w) = Attr (Some 3600500) /\
  _last_state (self w) = Attr (mkLastState None None) /\
  int_of_float (float_mul (Host.getTime h) (float_of_int 1000)) = Ok 12500 /\
  onPlayBackPaused h w
  = (Ok tt,
     mkWorld
       (set_last_state (mkLastState (Some 12500) (Some PLEX_PLAYER_PAUSED))
          (self w))
       (threads w)
       (calls w
        ++ [updateTimeline Sample.item42 12500 PLEX_PLAYER_PAUSED
              (Some 3600500)])) /\
  onPlayBackResumed h w
  = (Ok tt,
     mkWorld
       (set_last_state (mkLastState (Some 12500) (Some PLEX_PLAYER_PLAYING))
          (self w))
       (threads w)
       (calls w
        ++ [updateTimeline Sample.item42 12500 PLEX_PLAYER_PLAYING
              (Some 3600500)])).
Proof.
  intros h w. repeat (split; [reflexivity|]).
  apply (pause_and_resume_report h w Sample.item42 (Some 3600500)
           (mkLastState None None) 12500); reflexivity.
Defined.

(** X10.  On a session with a matched item and a recorded state, each of the
    two seek callbacks at an elapsed time other than 0 sends exactly one
    update, the elapsed time with the recorded state, and records the
    time; the recorded state stays. *)
Theorem seek_reports_time (h : Host.t) (w : World) (it : PlexItem.t)
    (d : option Z) (lt : option Z) (s : string) (t : Z) :
  _item (self w) = Attr (Some it) ->
  _duration (self w) = Attr d ->
  _last_state (self w) = Attr (mkLastState lt (Some s)) ->
  truthy s = true ->
  int_of_float (float_mul (Host.getTime h) (float_of_int 1000)) = Ok t ->
  t <> 0 ->
  let w' := mkWorld (set_last_state (mkLastState (Some t) (Some s)) (self w))
              (threads w) (calls w ++ [updateTimeline it t s d]) in
  onPlayBackSeek h w = (Ok tt, w') /\
  onPlayBackSeekChapter h w = (Ok tt, w').
Proof.
  intros Hi Hd Hl Hs Ht Hnz w'. subst w'.
  unfold onPlayBackSeek, onPlayBackSeekChapter, bind.
  rewrite (getPlayingTime_ok h t w Ht).
  split; apply (sync_time_only_pushes t s lt it d w); assumption.
Qed.

(** X9.  On a session with a matched item, the stopped callback returns and
    leaves the session reset.  Before the reset it sends one update, the
    last recorded time with the state STOPPED, when a time has been
    recorded; when none has, the stop is not reported. *)
Theorem stop_reports_then_resets (w : World) (it : PlexItem.t) (d : option Z)
    (lt : option Z) (s0 : option string) :
  _item (self w) = Attr (Some it) ->
  _duration (self w) = Attr d ->
  _last_state (self w) = Attr (mkLastState lt s0) ->
  exists w',
    onPlayBackStopped w = (Ok tt, w') /\
    idle (self w') /\
    _providers (self w') = _providers (self w) /\
    threads w' = threads w /\
    calls w'
    = calls w ++ match lt with
                 | Some t => [updateTimeline it t PLEX_PLAYER_STOPPED d]
                 | None => []
                 end.
Proof.
  intros Hi Hd Hl. destruct w as [[ps fl i iid mp du mon ls] ths cs].
  cbn [self _item _duration _last_state] in Hi, Hd, Hl. subst i du ls.
  destruct lt as [t|]; eexists; (split; [reflexivity|]);
    cbn [self threads calls _providers]; repeat split.
  rewrite app_nil_r. reflexivity.
Qed.

Lemma seek_reports_time_witness :
  let h := Sample.host "42" 25 in
  let w := snd (onPlayBackPaused (Sample.host "42" 20) Sample.matched) in
  _item (self w) = Attr (Some Sample.item42) /\
  _duration (self w) = Attr (Some 3600500) /\
  _last_state (self w)
  = Attr (mkLastState (Some 10000) (Some PLEX_PLAYER_PAUSED)) /\
  truthy PLEX_PLAYER_PAUSED = true /\
  int_of_float (float_mul (Host.getTime h) (float_of_int 1000)) = Ok 12500 /\
  12500 <> 0 /\
  let w' := mkWorld
              (set_last_state
                 (mkLastState (Some 12500) (Some PLEX_PLAYER_PAUSED)) (self w))
              (threads w)
              (calls w
               ++ [updateTimeline Sample.item42 12500 PLEX_PLAYER_PAUSED
                     (Some 3600500)]) in
  onPlayBackSeek h w = (Ok tt, w') /\
  onPlayBackSeekChapter h w = (Ok tt, w').
Proof.
  intros h w. repeat (split; [reflexivity|]). split; [lia|].
  apply (seek_reports_time h w Sample.item42 (Some 3600500) (Some 10000)
           PLEX_PLAYER_PAUSED 12500); try reflexivity. lia.
Defined.

Lemma stop_reports_then_resets_witness :
  let w := snd (onPlayBackPaused (Sample.host "42" 25) Sample.matched) in
  _item (self w) = Attr (Some Sample.item42) /\
  _duration (self w) = Attr (Some 3600500) /\
  _last_state (self w)
  = Attr (mkLastState (Some 12500) (Some PLEX_PLAYER_PAUSED)) /\
  exists w',
    onPlayBackStopped w = (Ok tt, w') /\
    idle (self w') /\
    _providers (self w') = _providers (self w) /\
    threads w' = threads w /\
    calls w'
    = calls w
      ++ [updateTimeline Sample.item42 12500 PLEX_PLAYER_STOPPED (Some 3600500)].
Proof.
  intros w. repeat (split; [reflexivity|]).
  apply (stop_reports_then_resets w Sample.item42 (Some 3600500) (Some 12500)
           (Some PLEX_PLAYER_PAUSED)); reflexivity.
Defined.

(** X11.  While no item is matched ([self._item] is [None]), the seek,
    paused and resumed callbacks change nothing and send nothing, and the
    stopped callback sends nothing and leaves the session reset. *)
Theorem unmatched_session_is_silent (h : Host.t) (w : World) (t : Z) :
  _item (self w) = Attr None ->
  int_of_float (float_mul (Host.getTime h) (float_of_int 1000)) = Ok t ->
  onPlayBackSeek h w = (Ok tt, w) /\
  onPlayBackSeekChapter h w = (Ok tt, w) /\
  onPlayBackPaused h w = (Ok tt, w) /\
  onPlayBackResumed h w = (Ok tt, w) /\
  exists w',
    onPlayBackStopped w = (Ok tt, w') /\
    idle (self w') /\
    _providers (self w') = _providers (self w) /\
    threads w' = threads w /\
    calls w' = calls w.
Proof.
  intros Hi Ht.
  unfold onPlayBackSeek, onPlayBackSeekChapter, onPlayBackPaused,
    onPlayBackResumed, onPlayBackStopped, onPlayBackEnded, bind.
  rewrite (getPlayingTime_ok h t w Ht), !(sync_without_item _ _ w Hi).
  repeat (split; [reflexivity|]).
  eexists. split; [reflexivity|]. repeat split.
Qed.

Lemma unmatched_session_is_silent_witness :
  let h := Sample.host "9" 25 in
  let w := snd (onPlayBackStarted h Sample.one_provider) in
  _item (self w) = Attr None /\
  int_of_float (float_mul (Host.getTime h) (float_of_int 1000)) = Ok 12500 /\
  onPlayBackSeek h w = (Ok tt, w) /\
  onPlayBackSeekChapter h w = (Ok tt, w) /\
  onPlayBackPaused h w = (Ok tt, w) /\
  onPlayBackResumed h w = (Ok tt, w) /\
  exists w',
    onPlayBackStopped w = (Ok tt, w') /\
    idle (self w') /\
    _providers (self w') = _providers (self w) /\
    threads w' = threads w /\
    calls w' = calls w.
Proof.
  intros h w. repeat (split; [reflexivity|]).
  apply (unmatched_session_is_silent h w 12500); reflexivity.
Defined.

(** X12.  When there is nothing to match (no playing file recorded, the
    media is not a video, the video has no tag, or the tag has no unique id
    under the protocol tag), the matching procedure returns at once: no
    catalog is fetched, nothing is logged and the session, its file
    included, stays as it is.  With no item matched before, the whole
    A/V-started callback changes nothing. *)
Theorem nothing_to_match_is_noop (h : Host.t) (w : World)
    (file : option string) :
  _file (self w) = Attr file ->
  nothing_to_match h file = true ->
  _startPlayback h w = (Ok tt, w) /\
  (_item (self w) = Attr None -> onAVStarted h w = (Ok tt, w)).
Proof.
  intros Hf Hn.
  assert (E : _startPlayback h w = (Ok tt, w)).
  { unfold _startPlayback, bind at 1, getattr at 1. rewrite Hf.
    unfold nothing_to_match in Hn.
    destruct (truthy file); [|reflexivity].
    destruct (Host.isPlayingVideo h); [|reflexivity].
    destruct (Host.getVideoInfoTag h) as [tag|]; [|reflexivity].
    cbn [negb orb] in *.
    destruct (truthy (InfoTagVideo.getUniqueID tag PLEX_PROTOCOL));
      [discriminate | reflexivity]. }
  split; [exact E|]. intros Hi. unfold onAVStarted, bind. rewrite E.
  apply sync_without_item. exact Hi.
Qed.

Lemma nothing_to_match_is_noop_witness :
  let h := Host.mk "/media/song.flac" false None (Sample.seconds 0)
             (Sample.seconds 400) false Sample.catalog Sample.resolve in
  let w := snd (onPlayBackStarted h Sample.one_provider) in
  _file (self w) = Attr (Some "/media/song.flac") /\
  nothing_to_match h (Some "/media/song.flac") = true /\
  _startPlayback h w = (Ok tt, w) /\
  (_item (self w) = Attr None -> onAVStarted h w = (Ok tt, w)).
Proof.
  intros h w. repeat (split; [reflexivity|]).
  apply (nothing_to_match_is_noop h w (Some "/media/song.flac")); reflexivity.
Defined.

(** ** Matching: the warning, the monitor handle, the unresolved item *)

(** The matching procedure on a session whose monitor handle holds a
    thread. *)
Lemma startPlayback_matched_handle (h : Host.t) (w : World) (f : string)
    (tag : InfoTagVideo.t) (pre post : list MediaProvider.t)
    (p : MediaProvider.t) (d : Z) (th : Thread.t) :
  _file (self w) = Attr (Some f) ->
  truthy f = true ->
  _playback_monitor (self w) = Attr (Some th) ->
  Host.isPlayingVideo h = true ->
  Host.getVideoInfoTag h = Some tag ->
  isdigit (InfoTagVideo.getUniqueID tag PLEX_PROTOCOL) = true ->
  dict_values (_providers (self w)) = pre ++ p :: post ->
  forallb (no_match h (Some (item_id tag))) pre = true ->
  no_match h (Some (item_id tag)) p = false ->
  int_of_float (float_mul (Host.getTotalTime h) (float_of_int 1000)) = Ok d ->
  let new := Thread.mk (length (threads w)) in
  let found :=
    calls w ++ map getImportedItems pre ++ [getImportedItems p]
      ++ ambiguity_warning h p (Some (item_id tag)) (Some f)
      ++ [getPlexItem p (Some (item_id tag)) (InfoTagVideo.getMediaType tag)] in
  let session (monitor : Thread.t) :=
    mkPlayer (_providers (self w)) (Attr (Some f))
      (Attr (Host.getPlexItemDetails h p (Some (item_id tag))
               (InfoTagVideo.getMediaType tag)))
      (Attr (Some (item_id tag))) (Attr (Some p)) (Attr (Some d))
      (Attr (Some monitor)) (_last_state (self w)) in
  _startPlayback h w
  = (Ok tt,
     if is_alive w th
     then mkWorld (session th) (threads w) found
     else mkWorld (session new) (threads w ++ [AtLoopTest])
            (found ++ [threadStart new])).
Proof.
  intros Hf Hft Hmon Hv Htag Hd Hps Hpre Hp Hdur new found session.
  subst new found session.
  unfold _startPlayback. unfold bind at 1, getattr at 1. rewrite Hf.
  change (truthy (Some f)) with (truthy f).
  rewrite Hft, Hv, Htag, (isdigit_truthy _ Hd), Hd. cbn [negb].
  unfold bind at 1. cbn [ret]. unfold bind at 1, lift.
  rewrite (int_of_digits _ Hd). unfold bind at 1. cbn [setattr].
  unfold bind at 1. cbn [self set_itemId _providers]. rewrite Hps.
  rewrite (for_mediaProvider_selects h (Some (item_id tag)) (Some f));
    [|reflexivity|exact Hf|exact Hpre|exact Hp].
  rewrite Hdur.
  destruct w as [[ps fl it iid mp du mon ls] ths cs].
  cbn [self _file _playback_monitor] in Hf, Hmon. subst fl mon.
  run_monad. change (truthy (Some th)) with true.
  unfold is_alive, thread_pc. cbn [threads negb orb].
  destruct (nth (Thread.ident th) ths Exited); run_monad;
    rewrite <- ?app_assoc, ?list_set_last; reflexivity.
Qed.

(** X14.  An A/V start that matches while the monitor handle of the session
    holds a thread: when that thread is alive it is kept, no thread is
    created and none started; when it has ended, a new thread is created,
    stored in the handle and started, after the remote item has been
    resolved. *)
Theorem monitor_thread_is_reused (h : Host.t) (w : World) (f : string)
    (tag : InfoTagVideo.t) (pre post : list MediaProvider.t)
    (p : MediaProvider.t) (d : Z) (th : Thread.t) :
  _file (self w) = Attr (Some f) ->
  truthy f = true ->
  _playback_monitor (self w) = Attr (Some th) ->
  Host.isPlayingVideo h = true ->
  Host.getVideoInfoTag h = Some tag ->
  isdigit (InfoTagVideo.getUniqueID tag PLEX_PROTOCOL) = true ->
  dict_values (_providers (self w)) = pre ++ p :: post ->
  forallb (no_match h (Some (item_id tag))) pre = true ->
  no_match h (Some (item_id tag)) p = false ->
  int_of_float (float_mul (Host.getTotalTime h) (float_of_int 1000)) = Ok d ->
  let w' := snd (_startPlayback h w) in
  let new := Thread.mk (length (threads w)) in
  let found :=
    calls w ++ map getImportedItems pre ++ [getImportedItems p]
      ++ ambiguity_warning h p (Some (item_id tag)) (Some f)
      ++ [getPlexItem p (Some (item_id tag)) (InfoTagVideo.getMediaType tag)] in
  fst (_startPlayback h w) = Ok tt /\
  (is_alive w th = true ->
   threads w' = threads w /\
   _playback_monitor (self w') = Attr (Some th) /\
   calls w' = found) /\
  (is_alive w th = false ->
   threads w' = threads w ++ [AtLoopTest] /\
   _playback_monitor (self w') = Attr (Some new) /\
   is_alive w' new = true /\
   calls w' = found ++ [threadStart new]).
Proof.
  intros Hf Hft Hmon Hv Htag Hd Hps Hpre Hp Hdur w' new found.
  subst w' new found.
  rewrite (startPlayback_matched_handle h w f tag pre post p d th)
    by assumption.
  cbn [fst snd]. split; [reflexivity|]. split; intros Ha; rewrite Ha;
    cbn [self threads calls _playback_monitor].
  - repeat split.
  - split; [reflexivity|]. split; [reflexivity|]. split; [|reflexivity].
    unfold is_alive, thread_pc. cbn [threads Thread.ident].
    rewrite nth_middle. reflexivity.
Qed.

Lemma monitor_thread_is_reused_witness :
  let h := Sample.host "42" 0 in
  let w := Sample.matched in
  let tag := Sample.tag "42" in
  let th := Thread.mk 0 in
  let w' := snd (_startPlayback h w) in
  _file (self w) = Attr (Some "/media/film.mkv") /\
  truthy "/media/film.mkv" = true /\
  _playback_monitor (self w) = Attr (Some th) /\
  Host.isPlayingVideo h = true /\
  Host.getVideoInfoTag h = Some tag /\
  isdigit (InfoTagVideo.getUniqueID tag PLEX_PROTOCOL) = true /\
  dict_values (_providers (self w)) = [] ++ Sample.P1 :: [] /\
  forallb (no_match h (Some (item_id tag))) [] = true /\
  no_match h (Some (item_id tag)) Sample.P1 = false /\
  int_of_float (float_mul (Host.getTotalTime h) (float_of_int 1000))
  = Ok 3600500 /\
  is_alive w th = true /\
  threads w' = threads w /\
  _playback_monitor (self w') = Attr (Some th) /\
  calls w'
  = calls w ++ map getImportedItems [] ++ [getImportedItems Sample.P1]
      ++ ambiguity_warning h Sample.P1 (Some (item_id tag))
           (Some "/media/film.mkv")
      ++ [getPlexItem Sample.P1 (Some (item_id tag))
            (InfoTagVideo.getMediaType tag)].
Proof.
  intros h w tag th w'. repeat (split; [reflexivity|]).
  apply (monitor_thread_is_reused h w "/media/film.mkv" tag [] []
           Sample.P1 3600500 th); reflexivity.
Defined.

Lemma thread_pc_app (w : World) (th : Thread.t) (p : Player)
    (l : list MonitorPC) (cs : list Call) :
  thread_pc w th <> Exited ->
  thread_pc (mkWorld p (threads w ++ l) cs) th = thread_pc w th.
Proof.
  intros H. unfold thread_pc. cbn [threads].
  apply app_nth1. apply alive_in_range. exact H.
Qed.

Lemma monitor_continues (h : Host.t) (th : Thread.t) (w : World)
    (it : PlexItem.t) (t : Z) (lt : option Z) (s : string) (d : option Z) :
  is_alive w th = true ->
  Host.abortRequested h = false ->
  _item (self w) = Attr (Some it) ->
  _duration (self w) = Attr d ->
  _last_state (self w) = Attr (mkLastState lt (Some s)) ->
  truthy s = true ->
  int_of_float (float_mul (Host.getTime h) (float_of_int 1000)) = Ok t ->
  is_alive (_monitor_playback h th w) th = true /\
  (thread_pc w th = Waiting -> t <> 0 ->
   calls (_monitor_playback h th w) = calls w ++ [updateTimeline it t s d]).
Proof.
  intros Ha Hab Hi Hd Hl Hs Ht.
  pose proof (alive_not_exited w th Ha) as Hne.
  unfold is_alive in Ha.
  destruct (thread_pc w th) eqn:Hpc; try discriminate.
  - assert (E : _monitor_playback h th w = set_pc th Waiting w).
    { unfold _monitor_playback. rewrite Hpc. unfold monitor_loop_test.
      rewrite Hab. unfold bind, getattr. rewrite Hi. reflexivity. }
    rewrite E. split; [|discriminate].
    unfold is_alive. rewrite thread_pc_set_pc by congruence. reflexivity.
  - assert (E : _monitor_playback h th w
                = set_pc th AtLoopTest (snd (_syncPlaybackState None (Some t) w))
                /\ fst (_syncPlaybackState None (Some t) w) = Ok tt).
    { unfold _monitor_playback. rewrite Hpc. unfold monitor_wake.
      rewrite Hab. unfold bind at 1, getattr. rewrite Hi.
      change (truthy (Some it)) with true. cbn [negb].
      unfold bind at 1. rewrite (getPlayingTime_ok h t w Ht).
      unfold bind at 1.
      destruct (Z.eq_dec t 0) as [->|Hnz].
      - rewrite sync_time_zero_is_skip. split; reflexivity.
      - rewrite (sync_time_only_pushes t s lt it d w Hnz Hs Hi Hd Hl).
        split; reflexivity. }
    destruct E as [E _]. rewrite E. split.
    + unfold is_alive. rewrite thread_pc_set_pc; [reflexivity|].
      destruct (sync_sends_frame None (Some t) w) as (_ & _ & _ & _ & _ & _ & _ & Hth).
      unfold thread_pc in *. rewrite Hth. congruence.
    + intros _ Hnz.
      rewrite (sync_time_only_pushes t s lt it d w Hnz Hs Hi Hd Hl).
      reflexivity.
Qed.

(** X15.  The reset at a playback start forgets the monitor handle without
    ending the thread.  So when a monitor thread of an earlier session is
    still alive at the playback start of a session that then matches, the
    A/V start creates and starts a second thread, and the earlier thread
    stays alive: at its next step (no abort, a finite elapsed time) it
    goes on, and after a wait it reports the elapsed time to the item of
    the new session. *)
Theorem new_session_keeps_old_monitor (h0 h : Host.t) (w0 : World)
    (old : Thread.t) (pre post : list MediaProvider.t) (P : MediaProvider.t)
    (tag : InfoTagVideo.t) (it : PlexItem.t) (d : Z) :
  is_alive w0 old = true ->
  truthy (Host.getPlayingFile h0) = true ->
  Host.isPlayingVideo h = true ->
  Host.getVideoInfoTag h = Some tag ->
  isdigit (InfoTagVideo.getUniqueID tag PLEX_PROTOCOL) = true ->
  dict_values (_providers (self w0)) = pre ++ P :: post ->
  forallb (no_match h (Some (item_id tag))) pre = true ->
  no_match h (Some (item_id tag)) P = false ->
  Host.getPlexItemDetails h P (Some (item_id tag))
    (InfoTagVideo.getMediaType tag) = Some it ->
  int_of_float (float_mul (Host.getTotalTime h) (float_of_int 1000)) = Ok d ->
  let w := snd (onPlayBackStarted h0 w0) in
  let new := Thread.mk (length (threads w0)) in
  exists w',
    onAVStarted h w = (Ok tt, w') /\
    _playback_monitor (self w') = Attr (Some new) /\
    new <> old /\
    is_alive w' new = true /\
    is_alive w' old = true /\
    forall (h' : Host.t) (t' : Z),
      Host.abortRequested h' = false ->
      int_of_float (float_mul (Host.getTime h') (float_of_int 1000)) = Ok t' ->
      is_alive (_monitor_playback h' old w') old = true /\
      (thread_pc w0 old = Waiting -> t' <> 0 ->
       calls (_monitor_playback h' old w')
       = calls w' ++ [updateTimeline it t' PLEX_PLAYER_PLAYING (Some d)]).
Proof.
  intros Ha Hft Hv Htag Hd Hps Hpre Hp Hit Hdur w new.
  pose proof (alive_not_exited w0 old Ha) as Hne.
  pose proof (startPlayback_matched h w (Host.getPlayingFile h0) tag pre post
                P d eq_refl Hft eq_refl Hv Htag Hd Hps Hpre Hp Hdur) as E.
  cbv zeta in E. rewrite Hit in E.
  eexists. split.
  { unfold onAVStarted, bind. rewrite E.
    apply (sync_state_and_time_pushes PLEX_PLAYER_PLAYING 0
             (mkLastState None None) it (Some d)); reflexivity. }
  set (w' := mkWorld _ _ _).
  assert (Hpc : thread_pc w' old = thread_pc w0 old).
  { subst w'. apply (thread_pc_app w0 old). exact Hne. }
  assert (Hold : is_alive w' old = true).
  { unfold is_alive. rewrite Hpc. exact Ha. }
  split; [reflexivity|]. split.
  { intros E'. apply alive_in_range in Hne. rewrite <- E' in Hne.
    subst new. cbn [Thread.ident] in Hne. lia. }
  split.
  { unfold is_alive, thread_pc. subst w' new. cbn [threads Thread.ident].
    change (threads w) with (threads w0).
    rewrite nth_middle. reflexivity. }
  split; [exact Hold|].
  intros h' t' Hab Ht'.
  destruct (monitor_continues h' old w' it t' (Some 0) PLEX_PLAYER_PLAYING
              (Some d) Hold Hab eq_refl eq_refl eq_refl eq_refl Ht')
    as [H1 H2].
  split; [exact H1|]. intros Hw. apply H2. rewrite Hpc. exact Hw.
Qed.

Lemma new_session_keeps_old_monitor_witness :
  let h := Sample.host "42" 0 in
  let w0 := Sample.cleared in
  let old := Thread.mk 0 in
  let tag := Sample.tag "42" in
  is_alive w0 old = true /\
  truthy (Host.getPlayingFile h) = true /\
  Host.isPlayingVideo h = true /\
  Host.getVideoInfoTag h = Some tag /\
  isdigit (InfoTagVideo.getUniqueID tag PLEX_PROTOCOL) = true /\
  dict_values (_providers (self w0)) = [] ++ Sample.P1 :: [] /\
  forallb (no_match h (Some (item_id tag))) [] = true /\
  no_match h (Some (item_id tag)) Sample.P1 = false /\
  Host.getPlexItemDetails h Sample.P1 (Some (item_id tag))
    (InfoTagVideo.getMediaType tag) = Some Sample.item42 /\
  int_of_float (float_mul (Host.getTotalTime h) (float_of_int 1000))
  = Ok 3600500 /\
  let w := snd (onPlayBackStarted h w0) in
  let new := Thread.mk (length (threads w0)) in
  exists w',
    onAVStarted h w = (Ok tt, w') /\
    _playback_monitor (self w') = Attr (Some new) /\
    new <> old /\
    is_alive w' new = true /\
    is_alive w' old = true /\
    forall (h' : Host.t) (t' : Z),
      Host.abortRequested h' = false ->
      int_of_float (float_mul (Host.getTime h') (float_of_int 1000)) = Ok t' ->
      is_alive (_monitor_playback h' old w') old = true /\
      (thread_pc w0 old = Waiting -> t' <> 0 ->
       calls (_monitor_playback h' old w')
       = calls w'
         ++ [updateTimeline Sample.item42 t' PLEX_PLAYER_PLAYING (Some 3600500)]).
Proof.
  intros h w0 old tag. repeat (split; [reflexivity|]).
  apply (new_session_keeps_old_monitor h h w0 old [] [] Sample.P1 tag
           Sample.item42 3600500); reflexivity.
Defined.

(** X13.  When more than one item of a provider's catalog matches the
    playing id, the loop logs one warning (provider, id, file) and selects
    that provider all the same: the remote item is resolved, the monitor
    started and the first update sent as for a single match. *)
Theorem ambiguous_catalog_warns_and_selects (h0 h : Host.t) (w0 : World)
    (pre post : list MediaProvider.t) (P : MediaProvider.t)
    (tag : InfoTagVideo.t) (it : PlexItem.t) (d : Z) :
  truthy (Host.getPlayingFile h0) = true ->
  Host.isPlayingVideo h = true ->
  Host.getVideoInfoTag h = Some tag ->
  isdigit (InfoTagVideo.getUniqueID tag PLEX_PROTOCOL) = true ->
  dict_values (_providers (self w0)) = pre ++ P :: post ->
  forallb (no_match h (Some (item_id tag))) pre = true ->
  (1 <? length (matching h P (Some (item_id tag))))%nat = true ->
  Host.getPlexItemDetails h P (Some (item_id tag))
    (InfoTagVideo.getMediaType tag) = Some it ->
  int_of_float (float_mul (Host.getTotalTime h) (float_of_int 1000)) = Ok d ->
  let w := snd (onPlayBackStarted h0 w0) in
  let new := Thread.mk (length (threads w0)) in
  exists w',
    onAVStarted h w = (Ok tt, w') /\
    _mediaProvider (self w') = Attr (Some P) /\
    calls w'
    = calls w0 ++ map getImportedItems pre
        ++ [getImportedItems P;
            log (multiple_items_match P (Some (item_id tag))
                   (Some (Host.getPlayingFile h0))) LOGWARNING;
            getPlexItem P (Some (item_id tag)) (InfoTagVideo.getMediaType tag);
            threadStart new;
            updateTimeline it 0 PLEX_PLAYER_PLAYING (Some d)].
Proof.
  intros Hft Hv Htag Hd Hps Hpre Hmany Hit Hdur w new.
  assert (Hm : no_match h (Some (item_id tag)) P = false).
  { rewrite no_match_matching.
    destruct (matching h P (Some (item_id tag))); [discriminate | reflexivity]. }
  pose proof (startPlayback_matched h w (Host.getPlayingFile h0) tag pre post
                P d eq_refl Hft eq_refl Hv Htag Hd Hps Hpre Hm Hdur) as E.
  cbv zeta in E. unfold ambiguity_warning in E. rewrite Hmany, Hit in E.
  eexists. split.
  { unfold onAVStarted, bind. rewrite E.
    apply (sync_state_and_time_pushes PLEX_PLAYER_PLAYING 0
             (mkLastState None None) it (Some d)); reflexivity. }
  cbn [self calls set_last_state _mediaProvider]. split; [reflexivity|].
  change (calls w) with (calls w0). change (threads w) with (threads w0).
  rewrite <- !app_assoc. reflexivity.
Qed.

Lemma ambiguous_catalog_warns_and_selects_witness :
  let h := Edge.host_doubled in
  let w0 := Sample.one_provider in
  let tag := Sample.tag "7" in
  truthy (Host.getPlayingFile h) = true /\
  Host.isPlayingVideo h = true /\
  Host.getVideoInfoTag h = Some tag /\
  isdigit (InfoTagVideo.getUniqueID tag PLEX_PROTOCOL) = true /\
  dict_values (_providers (self w0)) = [] ++ Sample.P1 :: [] /\
  forallb (no_match h (Some (item_id tag))) [] = true /\
  (1 <? length (matching h Sample.P1 (Some (item_id tag))))%nat = true /\
  Host.getPlexItemDetails h Sample.P1 (Some (item_id tag))
    (InfoTagVideo.getMediaType tag) = Some Edge.item7 /\
  int_of_float (float_mul (Host.getTotalTime h) (float_of_int 1000))
  = Ok 3600500 /\
  let w := snd (onPlayBackStarted h w0) in
  let new := Thread.mk (length (threads w0)) in
  exists w',
    onAVStarted h w = (Ok tt, w') /\
    _mediaProvider (self w') = Attr (Some Sample.P1) /\
    calls w'
    = calls w0 ++ map getImportedItems []
        ++ [getImportedItems Sample.P1;
            log (multiple_items_match Sample.P1 (Some (item_id tag))
                   (Some (Host.getPlayingFile h))) LOGWARNING;
            getPlexItem Sample.P1 (Some (item_id tag))
              (InfoTagVideo.getMediaType tag);
            threadStart new;
            updateTimeline Edge.item7 0 PLEX_PLAYER_PLAYING (Some 3600500)].
Proof.
  intros h w0 tag. repeat (split; [reflexivity|]).
  apply (ambiguous_catalog_warns_and_selects h h w0 [] [] Sample.P1 tag
           Edge.item7 3600500); reflexivity.
Defined.

(** X16.  When the provider is selected and the server gives no item for
    the id ([getPlexItemDetails] returns [None]), the A/V-started callback
    returns without sending anything: the session keeps the provider, the
    id and the duration with no matched item, and the monitor thread it
    has started ends at its first step. *)
Theorem unresolved_item_reports_nothing (h0 h : Host.t) (w0 : World)
    (pre post : list MediaProvider.t) (P : MediaProvider.t)
    (tag : InfoTagVideo.t) (d : Z) :
  truthy (Host.getPlayingFile h0) = true ->
  Host.isPlayingVideo h = true ->
  Host.getVideoInfoTag h = Some tag ->
  isdigit (InfoTagVideo.getUniqueID tag PLEX_PROTOCOL) = true ->
  dict_values (_providers (self w0)) = pre ++ P :: post ->
  forallb (no_match h (Some (item_id tag))) pre = true ->
  no_match h (Some (item_id tag)) P = false ->
  Host.getPlexItemDetails h P (Some (item_id tag))
    (InfoTagVideo.getMediaType tag) = None ->
  int_of_float (float_mul (Host.getTotalTime h) (float_of_int 1000)) = Ok d ->
  let w := snd (onPlayBackStarted h0 w0) in
  let new := Thread.mk (length (threads w0)) in
  exists w',
    onAVStarted h w = (Ok tt, w') /\
    _item (self w') = Attr None /\
    _mediaProvider (self w') = Attr (Some P) /\
    _itemId (self w') = Attr (Some (item_id tag)) /\
    _duration (self w') = Attr (Some d) /\
    _playback_monitor (self w') = Attr (Some new) /\
    is_alive w' new = true /\
    pushes w' = pushes w0 /\
    monitors_end w'.
Proof.
  intros Hft Hv Htag Hd Hps Hpre Hm Hit Hdur w new.
  pose proof (startPlayback_matched h w (Host.getPlayingFile h0) tag pre post
                P d eq_refl Hft eq_refl Hv Htag Hd Hps Hpre Hm Hdur) as E.
  cbv zeta in E. rewrite Hit in E.
  eexists. split.
  { unfold onAVStarted, bind. rewrite E. apply sync_without_item.
    reflexivity. }
  cbn [self _item _mediaProvider _itemId _duration _playback_monitor].
  repeat (split; [reflexivity|]). split.
  { unfold is_alive, thread_pc. subst new. cbn [threads Thread.ident].
    change (threads w) with (threads w0). rewrite nth_middle. reflexivity. }
  split.
  { unfold pushes. cbn [calls]. change (calls w) with (calls w0).
    rewrite !filter_app, no_push_in_fetches. unfold ambiguity_warning.
    destruct (1 <? _)%nat; cbn [filter is_push app]; rewrite ?app_nil_r;
      reflexivity. }
  apply idle_monitors_end. reflexivity.
Qed.

Lemma unresolved_item_reports_nothing_witness :
  let h := Edge.host_unresolved in
  let w0 := Sample.one_provider in
  let tag := Sample.tag "42" in
  truthy (Host.getPlayingFile h) = true /\
  Host.isPlayingVideo h = true /\
  Host.getVideoInfoTag h = Some tag /\
  isdigit (InfoTagVideo.getUniqueID tag PLEX_PROTOCOL) = true /\
  dict_values (_providers (self w0)) = [] ++ Sample.P1 :: [] /\
  forallb (no_match h (Some (item_id tag))) [] = true /\
  no_match h (Some (item_id tag)) Sample.P1 = false /\
  Host.getPlexItemDetails h Sample.P1 (Some (item_id tag))
    (InfoTagVideo.getMediaType tag) = None /\
  int_of_float (float_mul (Host.getTotalTime h) (float_of_int 1000))
  = Ok 3600500 /\
  let w := snd (onPlayBackStarted h w0) in
  let new := Thread.mk (length (threads w0)) in
  exists w',
    onAVStarted h w = (Ok tt, w') /\
    _item (self w') = Attr None /\
    _mediaProvider (self w') = Attr (Some Sample.P1) /\
    _itemId (self w') = Attr (Some (item_id tag)) /\
    _duration (self w') = Attr (Some 3600500) /\
    _playback_monitor (self w') = Attr (Some new) /\
    is_alive w' new = true /\
    pushes w' = pushes w0 /\
    monitors_end w'.
Proof.
  intros h w0 tag. repeat (split; [reflexivity|]).
  apply (unresolved_item_reports_nothing h h w0 [] [] Sample.P1 tag 3600500);
    reflexivity.
Defined.

(** ** No attribute error once the session attributes exist *)

Lemma safe_ret (A : Type) (a : A) : attr_safe (ret a).
Proof. intros w _. discriminate. Qed.

Lemma safe_raise (A : Type) (e : PyExc) :
  e <> AttributeError -> attr_safe (@raise A e).
Proof. intros He w _. cbn. congruence. Qed.

Lemma safe_lift (A : Type) (r : Res A) :
  r <> Raise AttributeError -> attr_safe (lift r).
Proof. intros Hr w _. exact Hr. Qed.

Lemma safe_local (A : Type) (x : option A) : attr_safe (local x).
Proof. intros w _. destruct x; discriminate. Qed.

Lemma safe_getitem (A : Type) (l : list A) (i : nat) :
  attr_safe (getitem l i).
Proof. intros w _. unfold getitem. destruct (nth_error l i); discriminate. Qed.

Lemma safe_getattr (A : Type) (f : Player -> attr A) :
  (forall p, initialised p = true -> has_attr (f p) = true) ->
  attr_safe (getattr f).
Proof.
  intros Hf w H. specialize (Hf (self w) H). unfold getattr.
  destruct (f (self w)); [discriminate Hf | discriminate].
Qed.

Lemma safe_setattr (upd : Player -> Player) : attr_safe (setattr upd).
Proof. intros w _. discriminate. Qed.

Lemma safe_call (c : Call) : attr_safe (call c).
Proof. intros w _. discriminate. Qed.

Lemma safe_Thread_new : attr_safe Thread_new.
Proof. intros w _. discriminate. Qed.

Lemma safe_Thread_start (th : Thread.t) : attr_safe (Thread_start th).
Proof. intros w _. discriminate. Qed.

Lemma safe_Thread_isAlive (th : Thread.t) : attr_safe (Thread_isAlive th).
Proof. intros w _. discriminate. Qed.

Lemma safe_bind (A B : Type) (m : M A) (k : A -> M B) :
  attr_safe m -> preserves m -> (forall a, attr_safe (k a)) ->
  attr_safe (bind m k).
Proof.
  intros Hm Hp Hk w H. unfold bind. specialize (Hm w H). specialize (Hp w H).
  destruct (m w) as [[a|e] w1]; cbn [fst snd] in *.
  - apply Hk. exact Hp.
  - intros E. apply Hm. injection E as ->. reflexivity.
Qed.

Lemma safe_if (A : Type) (b : bool) (m1 m2 : M A) :
  attr_safe m1 -> attr_safe m2 -> attr_safe (if b then m1 else m2).
Proof. destruct b; tauto. Qed.

Lemma safe_reads (A : Type) (f : World -> M A) :
  (forall w0, attr_safe (f w0)) -> attr_safe (fun w => f w w).
Proof. intros Hf w H. apply Hf. exact H. Qed.

Lemma initialised_attrs (p : Player) :
  initialised p = true ->
  has_attr (_file p) = true /\ has_attr (_item p) = true /\
  has_attr (_itemId p) = true /\ has_attr (_mediaProvider p) = true /\
  has_attr (_duration p) = true /\ has_attr (_playback_monitor p) = true /\
  has_attr (_last_state p) = true.
Proof.
  unfold initialised. intros H.
  repeat (apply andb_prop in H as [H ?]). tauto.
Qed.

Lemma int_of_float_no_attr_error (x : float) :
  int_of_float x <> Raise AttributeError.
Proof. destruct x; discriminate. Qed.

Lemma int_of_str_no_attr_error (s : string) :
  int_of_str s <> Raise AttributeError.
Proof. unfold int_of_str. destruct (isdigit s); discriminate. Qed.

Ltac safe :=
  repeat first
    [ apply safe_ret | apply safe_local | apply safe_getitem
    | apply safe_setattr | apply safe_call | apply safe_Thread_new
    | apply safe_Thread_start | apply safe_Thread_isAlive
    | assumption
    | match goal with
      | H : forall _ _, attr_safe _ |- _ => apply H
      end
    | apply safe_raise; discriminate
    | apply safe_lift;
      first [apply int_of_float_no_attr_error | apply int_of_str_no_attr_error]
    | apply safe_getattr; intros ? ?;
      match goal with
      | H : initialised _ = true |- _ => apply initialised_attrs in H; tauto
      end
    | apply safe_bind; [| solve [preserve] | intros ?]
    | apply safe_if
    | match goal with
      | |- attr_safe (match ?x with _ => _ end) => destruct x
      end ].

Lemma safe_reset : attr_safe _reset.
Proof. unfold _reset. safe. Qed.

Lemma safe_sync (state : option string) (time : option Z) :
  attr_safe (_syncPlaybackState state time).
Proof.
  intros w H. apply initialised_attrs in H.
  destruct w as [[ps fl [|[it|]] iid mp [|du] mon [|[[lt|] [[|c1 s1]|]]]]
                   ths cs];
    cbn [self _file _item _itemId _mediaProvider _duration _playback_monitor
         _last_state has_attr] in H;
    try (exfalso; intuition discriminate); clear H;
    destruct state as [[|c0 s0]|]; destruct time as [t|];
    unfold _syncPlaybackState;
    cbv [truthy Truthy_option Truthy_Z Truthy_string Truthy_PlexItem];
    try destruct (t =? 0); discriminate.
Qed.

Lemma safe_for (h : Host.t) (ps : list MediaProvider.t) :
  attr_safe (for_mediaProvider h ps).
Proof.
  induction ps as [|p ps IH]; cbn [for_mediaProvider]; safe.
Qed.

Lemma safe_startPlayback (h : Host.t) : attr_safe (_startPlayback h).
Proof.
  pose proof safe_reset.
  assert (attr_safe
            (fun w => for_mediaProvider h (dict_values (_providers (self w))) w)).
  { apply (safe_reads _
             (fun w0 => for_mediaProvider h (dict_values (_providers (self w0))))).
    intros w0. apply safe_for. }
  assert (preserves
            (fun w => for_mediaProvider h (dict_values (_providers (self w))) w)).
  { apply (preserves_reads _
             (fun w0 => for_mediaProvider h (dict_values (_providers (self w0))))).
    intros w0. apply preserves_for. }
  unfold _startPlayback. cbv zeta. safe.
Qed.

Lemma safe_callback (h : Host.t) (c : Callback) : attr_safe (callback h c).
Proof.
  pose proof safe_reset. pose proof (safe_startPlayback h).
  pose proof safe_sync.
  destruct c; cbn [callback];
    unfold onPlayBackStarted, onAVStarted, onPlayBackSeek,
      onPlayBackSeekChapter, onPlayBackPaused, onPlayBackResumed,
      onPlayBackStopped, onPlayBackEnded, _getPlayingTime;
    try solve [safe].
  - unfold AddProvider. destruct mediaProvider; safe.
  - unfold RemoveProvider. destruct mediaProvider as [p|]; [|safe].
    intros w _.
    destruct (dict_del (MediaProvider.getIdentifier p) (_providers (self w)));
      discriminate.
Qed.

Lemma initialised_after_reset (w : World) :
  initialised (self (snd (_reset w))) = true.
Proof. reflexivity. Qed.

(** X6.  From the first playback-started or ended callback on, the session
    attributes exist and stay: whatever callbacks and monitor steps follow,
    no callback ends with an [AttributeError]. *)
Theorem no_attribute_error_after_reset (w0 : World) (h0 : Host.t)
    (trace : list (Host.t * Event)) (h : Host.t) (c : Callback) :
  fst (callback h c (run (snd (onPlayBackStarted h0 w0)) trace))
  <> Raise AttributeError /\
  fst (callback h c (run (snd (onPlayBackEnded w0)) trace))
  <> Raise AttributeError.
Proof.
  split; apply safe_callback; apply initialised_run; reflexivity.
Qed.

(** ** One update per event *)

Lemma same_pushes_refl w : same_pushes w w.
Proof. reflexivity. Qed.

Lemma same_pushes_trans w1 w2 w3 :
  same_pushes w1 w2 -> same_pushes w2 w3 -> same_pushes w1 w3.
Proof. unfold same_pushes. congruence. Qed.

Lemma quiet_setattr (upd : Player -> Player) :
  frames same_pushes (setattr upd).
Proof. intros w. reflexivity. Qed.

Lemma quiet_call (c : Call) :
  is_push c = false -> frames same_pushes (call c).
Proof.
  intros Hc w. unfold same_pushes, pushes, call. cbn [snd calls].
  rewrite filter_app. cbn [filter]. rewrite Hc. apply app_nil_r.
Qed.

Lemma quiet_Thread_new : frames same_pushes Thread_new.
Proof. intros w. reflexivity. Qed.

Lemma quiet_Thread_start th : frames same_pushes (Thread_start th).
Proof. intros w. apply (quiet_call (threadStart th) eq_refl (set_pc th AtLoopTest w)). Qed.

Ltac quiet :=
  repeat first
    [ progress frame_with same_pushes_refl same_pushes_trans
    | apply quiet_setattr
    | apply quiet_call; reflexivity
    | apply quiet_Thread_new
    | apply quiet_Thread_start ].

Lemma quiet_reset : frames same_pushes _reset.
Proof. unfold _reset. quiet. Qed.

Lemma quiet_for h ps : frames same_pushes (for_mediaProvider h ps).
Proof.
  induction ps as [|p ps IH]; cbn [for_mediaProvider]; quiet.
Qed.

Lemma quiet_startPlayback h : frames same_pushes (_startPlayback h).
Proof.
  pose proof quiet_reset.
  unfold _startPlayback. cbv zeta. quiet.
  apply (frames_reads same_pushes _
           (fun w0 => for_mediaProvider h (dict_values (_providers (self w0))))).
  intros w0. apply quiet_for.
Qed.

(** At most one update more. *)
Lemma sync_one_more (state : option string) (time : option Z) (w : World) :
  exists l, pushes (snd (_syncPlaybackState state time w)) = pushes w ++ l /\
            (length l <= 1)%nat.
Proof.
  destruct (sync_facts state time w) as [_ [E|(it & t & s & d & E & _)]];
    unfold pushes; rewrite E.
  - exists []. rewrite app_nil_r. split; [reflexivity | cbn; lia].
  - exists [updateTimeline it t s d]. rewrite filter_app.
    split; [reflexivity | cbn; lia].
Qed.

Lemma quiet_then_sync (A : Type) (m : M A) (state : option string)
    (time : A -> option Z) (w : World) :
  frames same_pushes m ->
  exists l,
    pushes (snd (bind m (fun a => _syncPlaybackState state (time a)) w))
    = pushes w ++ l /\ (length l <= 1)%nat.
Proof.
  intros Hm. unfold bind. specialize (Hm w). unfold same_pushes in Hm.
  destruct (m w) as [[a|e] w1]; cbn [snd] in *.
  - rewrite <- Hm. apply sync_one_more.
  - exists []. rewrite app_nil_r. split; [exact Hm | cbn; lia].
Qed.

Lemma step_one_more (w : World) (he : Host.t * Event) :
  exists l, pushes (step w he) = pushes w ++ l /\ (length l <= 1)%nat.
Proof.
  assert (Hq : forall w', pushes w' = pushes w ->
                 exists l, pushes w' = pushes w ++ l /\ (length l <= 1)%nat).
  { intros w' E. exists []. rewrite app_nil_r. split; [exact E | cbn; lia]. }
  destruct he as [h [c|th]]; unfold step; cbn [fst snd].
  - destruct c; cbn [callback].
    + apply Hq. destruct mediaProvider; reflexivity.
    + apply Hq. unfold RemoveProvider. destruct mediaProvider as [p|];
        [|reflexivity].
      destruct (dict_del _ _); reflexivity.
    + apply Hq. reflexivity.
    + apply (quiet_then_sync unit (_startPlayback h) _ (fun _ => Some 0)).
      apply quiet_startPlayback.
    + apply (quiet_then_sync Z (_getPlayingTime h) None Some).
      unfold _getPlayingTime. quiet.
    + apply (quiet_then_sync Z (_getPlayingTime h) None Some).
      unfold _getPlayingTime. quiet.
    + apply (quiet_then_sync Z (_getPlayingTime h) _ Some).
      unfold _getPlayingTime. quiet.
    + apply (quiet_then_sync Z (_getPlayingTime h) _ Some).
      unfold _getPlayingTime. quiet.
    + unfold onPlayBackStopped, onPlayBackEnded, bind.
      destruct (sync_one_more (Some PLEX_PLAYER_STOPPED) None w)
        as (l & E & Hl).
      destruct (_syncPlaybackState (Some PLEX_PLAYER_STOPPED) None w)
        as [[[]|e] w1]; exists l; (split; [exact E | exact Hl]).
    + apply Hq. reflexivity.
  - unfold _monitor_playback. destruct (thread_pc w th).
    + apply Hq. reflexivity.
    + assert (Ht : frames same_pushes (monitor_loop_test h))
        by (unfold monitor_loop_test; quiet).
      specialize (Ht w).
      destruct (monitor_loop_test h w) as [[[]|] w1]; apply Hq; exact Ht.
    + assert (E : exists l, pushes (snd (monitor_wake h w)) = pushes w ++ l
                            /\ (length l <= 1)%nat).
      { unfold monitor_wake. destruct (Host.abortRequested h);
          [apply Hq; reflexivity|].
        unfold bind at 1, getattr.
        destruct (_item (self w)) as [|item]; [apply Hq; reflexivity|].
        destruct (negb (truthy item)); [apply Hq; reflexivity|].
        unfold bind at 1, _getPlayingTime, lift.
        destruct (int_of_float _) as [t|e]; [|apply Hq; reflexivity].
        unfold bind.
        destruct (sync_one_more None (Some t) w) as (l & E & Hl).
        destruct (_syncPlaybackState None (Some t) w) as [[[]|e] w1];
          exists l; (split; [exact E | exact Hl]). }
      destruct (monitor_wake h w) as [[[]|] w1]; exact E.
    + apply Hq. reflexivity.
Qed.

(** X20.  Every callback and every step of a monitor thread sends at most
    one timeline update and takes none back: after a run, the updates sent
    are those sent before followed by at most one per event. *)
Theorem one_update_per_event (w : World) (trace : list (Host.t * Event)) :
  exists l,
    pushes (run w trace) = pushes w ++ l /\
    (length l <= length trace)%nat.
Proof.
  unfold run. revert w. induction trace as [|he trace IH]; intros w.
  - exists []. rewrite app_nil_r. split; [reflexivity | cbn; lia].
  - cbn [fold_left]. destruct (step_one_more w he) as (l1 & E1 & H1).
    destruct (IH (step w he)) as (l2 & E2 & H2).
    exists (l1 ++ l2). rewrite E2, E1, app_assoc. split; [reflexivity|].
    rewrite length_app. cbn [length]. lia.
Qed.

(** ** What a monitor step leaves alone *)

Lemma same_but_last_state_refl w : same_but_last_state w w.
Proof. repeat split. Qed.

Lemma same_but_last_state_trans w1 w2 w3 :
  same_but_last_state w1 w2 -> same_but_last_state w2 w3 ->
  same_but_last_state w1 w3.
Proof. unfold same_but_last_state. intuition congruence. Qed.

Lemma sync_time_keeps_state (time : option Z) (w : World) (ls : LastState) :
  _last_state (self w) = Attr ls ->
  exists ls',
    _last_state (self (snd (_syncPlaybackState None time w))) = Attr ls' /\
    ls_state ls' = ls_state ls.
Proof.
  intros Hl.
  destruct w as [[ps fl [|[it|]] iid mp [|du] mon l] ths cs];
    cbn [self _last_state] in Hl; subst l;
    destruct ls as [[lt|] [[|c1 s1]|]]; destruct time as [t|];
    unfold _syncPlaybackState;
    cbv [truthy Truthy_option Truthy_Z Truthy_string Truthy_PlexItem];
    try destruct (t =? 0); run_monad; eexists; split; reflexivity.
Qed.

Lemma length_list_set (A : Type) (i : nat) (x : A) (l : list A) :
  length (list_set i x l) = length l.
Proof.
  revert i. induction l as [|a l IH]; intros [|i]; simpl; congruence.
Qed.

Lemma nth_list_set_ne (A : Type) (i j : nat) (x dflt : A) (l : list A) :
  j <> i -> nth j (list_set i x l) dflt = nth j l dflt.
Proof.
  revert i j. induction l as [|a l IH]; intros [|i] [|j] H; simpl;
    try reflexivity; try congruence.
  apply IH. congruence.
Qed.

Lemma monitor_step_shape (h : Host.t) (th : Thread.t) (w : World) :
  _monitor_playback h th w = w \/
  exists pc w1,
    _monitor_playback h th w = set_pc th pc w1 /\
    same_but_last_state w w1 /\
    forall ls, _last_state (self w) = Attr ls ->
               exists ls', _last_state (self w1) = Attr ls' /\
                           ls_state ls' = ls_state ls.
Proof.
  assert (Hself : forall ls, _last_state (self w) = Attr ls ->
            exists ls', _last_state (self w) = Attr ls' /\
                        ls_state ls' = ls_state ls) by eauto.
  unfold _monitor_playback. destruct (thread_pc w th); try (left; reflexivity);
    right.
  - assert (E : snd (monitor_loop_test h w) = w).
    { unfold monitor_loop_test. destruct (Host.abortRequested h);
        [reflexivity|].
      unfold bind, getattr. destruct (_item (self w)); reflexivity. }
    destruct (monitor_loop_test h w) as [[[]|] w1]; cbn [snd] in E; subst w1;
      eexists; exists w; (split; [reflexivity|]);
      (split; [apply same_but_last_state_refl | exact Hself]).
  - assert (Hw : snd (monitor_wake h w) = w \/
                 exists t, snd (monitor_wake h w)
                           = snd (_syncPlaybackState None (Some t) w)).
    { unfold monitor_wake, bind, getattr, _getPlayingTime, lift.
      destruct (Host.abortRequested h); [left; reflexivity|].
      destruct (_item (self w)) as [|item]; [left; reflexivity|].
      destruct (negb (truthy item)); [left; reflexivity|].
      destruct (int_of_float _) as [t|e]; [|left; reflexivity].
      right. exists t.
      destruct (_syncPlaybackState None (Some t) w) as [[[]|e] w1];
        reflexivity. }
    assert (E : same_but_last_state w (snd (monitor_wake h w)) /\
                forall ls, _last_state (self w) = Attr ls ->
                  exists ls', _last_state (self (snd (monitor_wake h w)))
                              = Attr ls' /\ ls_state ls' = ls_state ls).
    { destruct Hw as [->|[t ->]].
      - split; [apply same_but_last_state_refl | exact Hself].
      - split; [apply sync_sends_frame | apply sync_time_keeps_state]. }
    destruct E as [Hf Hs].
    destruct (monitor_wake h w) as [[[]|] w1]; cbn [snd] in *;
      eexists; exists w1; (split; [reflexivity|]); split; assumption.
Qed.

(** X17.  A step of a monitor thread, whatever the host answers and however
    it ends: it leaves the registry and every session attribute but the
    last-state record as they are, and in that record the state; it
    creates no thread and moves no thread but its own. *)
Theorem monitor_step_frame (h : Host.t) (th : Thread.t) (w : World) :
  let w' := _monitor_playback h th w in
  _providers (self w') = _providers (self w) /\
  _file (self w') = _file (self w) /\
  _item (self w') = _item (self w) /\
  _itemId (self w') = _itemId (self w) /\
  _mediaProvider (self w') = _mediaProvider (self w) /\
  _duration (self w') = _duration (self w) /\
  _playback_monitor (self w') = _playback_monitor (self w) /\
  length (threads w') = length (threads w) /\
  (forall th', Thread.ident th' <> Thread.ident th ->
               thread_pc w' th' = thread_pc w th') /\
  (forall ls, _last_state (self w) = Attr ls ->
              exists ls', _last_state (self w') = Attr ls' /\
                          ls_state ls' = ls_state ls).
Proof.
  intros w'. subst w'.
  destruct (monitor_step_shape h th w) as [->|(pc & w1 & -> & Hf & Hs)].
  - repeat split. eauto.
  - destruct Hf as (H1 & H2 & H3 & H4 & H5 & H6 & H7 & H8).
    unfold set_pc. cbn [self threads]. repeat (split; [assumption|]).
    split; [rewrite length_list_set, H8; reflexivity|]. split.
    + intros th' Hne. unfold thread_pc. cbn [threads].
      rewrite nth_list_set_ne by exact Hne. rewrite H8. reflexivity.
    + exact Hs.
Qed.

(** ** The id, parsed and printed *)

Lemma nat_of_digit_char (d : Z) :
  0 <= d < 10 -> Z.of_nat (nat_of_ascii (digit_char d)) = 48 + d.
Proof.
  intros Hd. unfold digit_char. rewrite nat_ascii_embedding by lia. lia.
Qed.

Lemma is_digit_digit_char (d : Z) :
  0 <= d < 10 -> is_digit_char (digit_char d) = true.
Proof.
  intros Hd. unfold is_digit_char. rewrite (nat_of_digit_char d Hd).
  apply andb_true_intro. split; apply Z.leb_le; lia.
Qed.

Lemma str_of_pos_fuel_value (fuel : nat) :
  forall (n : Z) (acc : string),
    0 <= n < 10 ^ Z.of_nat fuel ->
    exists k, 0 <= k /\
      forall a, digits_value a (str_of_pos_fuel fuel n acc)
                = digits_value (a * 10 ^ k + n) acc.
Proof.
  induction fuel as [|fuel IH]; intros n acc Hn.
  - exists 0. split; [lia|]. intros a. cbn [str_of_pos_fuel].
    f_equal. cbn in Hn. lia.
  - cbn [str_of_pos_fuel]. rewrite Nat2Z.inj_succ, Z.pow_succ_r in Hn by lia.
    assert (Hm : 0 <= n mod 10 < 10) by (apply Z.mod_pos_bound; lia).
    assert (Hten : 10 <> 0) by lia.
    pose proof (Z.div_mod n 10 Hten) as Hdm.
    destruct (Z.eqb_spec (n / 10) 0) as [Hz|Hz].
    + exists 1. split; [lia|]. intros a. cbn [digits_value].
      rewrite (nat_of_digit_char _ Hm). f_equal. lia.
    + destruct (IH (n / 10) (String (digit_char (n mod 10)) acc))
        as (k & Hk & E).
      { split; [apply Z.div_pos; lia|]. apply Z.div_lt_upper_bound; lia. }
      exists (k + 1). split; [lia|]. intros a. rewrite E.
      cbn [digits_value]. rewrite (nat_of_digit_char _ Hm). f_equal.
      rewrite Z.pow_add_r by lia. lia.
Qed.

Lemma str_of_pos_fuel_digits (fuel : nat) :
  forall (n : Z) (acc : string),
    all_digits acc = true ->
    all_digits (str_of_pos_fuel fuel n acc) = true.
Proof.
  induction fuel as [|fuel IH]; intros n acc Hacc; cbn [str_of_pos_fuel].
  - exact Hacc.
  - assert (Hm : 0 <= n mod 10 < 10) by (apply Z.mod_pos_bound; lia).
    assert (Hacc' : all_digits (String (digit_char (n mod 10)) acc) = true).
    { cbn [all_digits]. rewrite (is_digit_digit_char _ Hm). exact Hacc. }
    destruct (n / 10 =? 0); [exact Hacc' | apply IH; exact Hacc'].
Qed.

Lemma str_of_pos_fuel_head (fuel : nat) :
  forall (n : Z) (acc : string),
    0 < n < 10 ^ Z.of_nat fuel ->
    exists d s, str_of_pos_fuel fuel n acc = String (digit_char d) s /\
                0 < d < 10.
Proof.
  induction fuel as [|fuel IH]; intros n acc Hn.
  - cbn in Hn. lia.
  - cbn [str_of_pos_fuel]. rewrite Nat2Z.inj_succ, Z.pow_succ_r in Hn by lia.
    assert (Hten : 10 <> 0) by lia.
    pose proof (Z.div_mod n 10 Hten) as Hdm.
    assert (Hm : 0 <= n mod 10 < 10) by (apply Z.mod_pos_bound; lia).
    destruct (Z.eqb_spec (n / 10) 0) as [Hz|Hz].
    + exists (n mod 10), acc. split; [reflexivity | lia].
    + apply IH. assert (0 <= n / 10) by (apply Z.div_pos; lia).
      split; [lia|]. apply Z.div_lt_upper_bound; lia.
Qed.

Lemma enough_fuel (n : Z) :
  0 < n -> n < 10 ^ Z.of_nat (S (Z.to_nat (Z.log2 n))).
Proof.
  intros Hn. pose proof (Z.log2_nonneg n) as Hl.
  rewrite Nat2Z.inj_succ, Z2Nat.id by exact Hl.
  pose proof (Z.log2_spec n Hn) as [_ Hlt].
  eapply Z.lt_le_trans; [exact Hlt|].
  apply Z.pow_le_mono_l. lia.
Qed.

(** Printing and parsing back gives the number. *)
Lemma int_of_str_of_int (n : Z) : 0 <= n -> int_of_str (str_of_int n) = Ok n.
Proof.
  intros Hn. destruct n as [|p|p]; [reflexivity| |lia].
  unfold str_of_int.
  assert (H0 : 0 <= Z.pos p) by lia. assert (H1 : 0 < Z.pos p) by lia.
  pose proof (enough_fuel (Z.pos p) H1) as Hf.
  destruct (str_of_pos_fuel_value _ (Z.pos p) "" (conj H0 Hf))
    as (k & _ & E).
  destruct (str_of_pos_fuel_head _ (Z.pos p) "" (conj H1 Hf))
    as (d & s & Es & _).
  pose proof (str_of_pos_fuel_digits (S (Z.to_nat (Z.log2 (Z.pos p))))
                (Z.pos p) "" eq_refl) as Hd.
  unfold int_of_str, isdigit. rewrite Hd, (E 0).
  rewrite Es. cbn [truthy Truthy_string andb digits_value].
  rewrite Z.mul_0_l. reflexivity.
Qed.

Lemma digits_value_nonneg (s : string) :
  forall a, 0 <= a -> all_digits s = true -> 0 <= digits_value a s.
Proof.
  induction s as [|c s IH]; intros a Ha Hs; cbn [digits_value]; [exact Ha|].
  cbn [all_digits] in Hs. apply andb_prop in Hs as [Hc Hs].
  apply IH; [|exact Hs]. unfold is_digit_char in Hc.
  apply andb_prop in Hc as [Hc _]. apply Z.leb_le in Hc. lia.
Qed.

Lemma item_id_nonneg (tag : InfoTagVideo.t) :
  isdigit (InfoTagVideo.getUniqueID tag PLEX_PROTOCOL) = true ->
  0 <= item_id tag.
Proof.
  unfold isdigit. intros H. apply andb_prop in H as [_ H].
  apply digits_value_nonneg; [lia | exact H].
Qed.

(** X18.  The playing id is parsed to a number and compared in its printed
    form, so every catalog item the loop takes as matching carries a video
    tag whose unique id under the protocol tag is a digit string that
    parses to the id of the playing video. *)
Theorem matched_item_has_the_playing_id (h : Host.t) (p : MediaProvider.t)
    (tag : InfoTagVideo.t) (item : ListItem.t) :
  isdigit (InfoTagVideo.getUniqueID tag PLEX_PROTOCOL) = true ->
  In item (matching h p (Some (item_id tag))) ->
  exists t,
    ListItem.getVideoInfoTag item = Some t /\
    int_of_str (InfoTagVideo.getUniqueID t PLEX_PROTOCOL) = Ok (item_id tag).
Proof.
  intros Hd Hin. unfold matching in Hin. apply filter_In in Hin as [_ Hm].
  unfold item_matches in Hm.
  destruct (ListItem.getVideoInfoTag item) as [t|]; [|discriminate].
  exists t. split; [reflexivity|]. apply String.eqb_eq in Hm. rewrite Hm.
  cbn [str_of_itemId]. apply int_of_str_of_int. apply item_id_nonneg.
  exact Hd.
Qed.

Lemma matched_item_has_the_playing_id_witness :
  let h := Sample.host "042" 0 in
  let tag := Sample.tag "042" in
  let item := ListItem.mk (Some (Sample.tag "42")) in
  isdigit (InfoTagVideo.getUniqueID tag PLEX_PROTOCOL) = true /\
  In item (matching h Sample.P1 (Some (item_id tag))) /\
  exists t,
    ListItem.getVideoInfoTag item = Some t /\
    int_of_str (InfoTagVideo.getUniqueID t PLEX_PROTOCOL) = Ok (item_id tag).
Proof.
  intros h tag item. split; [reflexivity|].
  split; [left; reflexivity|].
  apply (matched_item_has_the_playing_id h Sample.P1 tag item);
    [reflexivity | left; reflexivity].
Defined.

Lemma str_of_int_head (n : Z) :
  0 < n -> exists d s, str_of_int n = String (digit_char d) s /\ 0 < d < 10.
Proof.
  intros Hn. destruct n as [|p|p]; try lia. unfold str_of_int.
  apply str_of_pos_fuel_head. split; [lia | apply enough_fuel; lia].
Qed.

Lemma digit_char_zero (d : Z) : 0 < d < 10 -> digit_char d <> "0"%char.
Proof.
  intros Hd E. assert (Hd' : 0 <= d < 10) by lia.
  pose proof (nat_of_digit_char d Hd') as H.
  rewrite E in H. change (Z.of_nat (nat_of_ascii "0")) with 48 in H. lia.
Qed.

(** X19.  The comparison is one of strings: a catalog item whose unique id
    is written with a leading zero (a ["0"] followed by at least one more
    character) is matched by no playing video, whatever its id. *)
Theorem leading_zero_in_catalog_never_matches (tag t : InfoTagVideo.t)
    (item : ListItem.t) (c : ascii) (s : string) :
  isdigit (InfoTagVideo.getUniqueID tag PLEX_PROTOCOL) = true ->
  ListItem.getVideoInfoTag item = Some t ->
  InfoTagVideo.getUniqueID t PLEX_PROTOCOL = String "0" (String c s) ->
  item_matches (str_of_itemId (Some (item_id tag))) item = false.
Proof.
  intros Hd Ht Hu. unfold item_matches. rewrite Ht, Hu. cbn [str_of_itemId].
  apply String.eqb_neq. intros E.
  pose proof (item_id_nonneg tag Hd) as Hn.
  destruct (Z.eq_dec (item_id tag) 0) as [Hz|Hz].
  - rewrite Hz in E. discriminate E.
  - assert (Hpos : 0 < item_id tag) by lia.
    destruct (str_of_int_head (item_id tag) Hpos) as (d & s' & Es & Hdd).
    rewrite Es in E. injection E as E _. symmetry in E.
    exact (digit_char_zero d Hdd E).
Qed.

Lemma leading_zero_in_catalog_never_matches_witness :
  let tag := Sample.tag "42" in
  let t := Sample.tag "042" in
  let item := ListItem.mk (Some t) in
  isdigit (InfoTagVideo.getUniqueID tag PLEX_PROTOCOL) = true /\
  ListItem.getVideoInfoTag item = Some t /\
  InfoTagVideo.getUniqueID t PLEX_PROTOCOL = String "0" (String "4" "2") /\
  item_matches (str_of_itemId (Some (item_id tag))) item = false.
Proof.
  intros tag t item. repeat (split; [reflexivity|]).
  apply (leading_zero_in_catalog_never_matches tag t item "4" "2");
    reflexivity.
Defined.
